(** * app.py: a health-check HTTP server

    A shallow embedding of [src/app/app.py]: the module-level imports, the
    [__main__] block that reads [PORT] and creates the [HTTPServer], and the
    request handler class [HealthHandler] with its two methods [do_GET] and
    [log_message].

    The interpreter and [http.server] are not part of the program.  What the
    program asks of them is written out here as far as the program's
    behaviour depends on it: [int] on a string, [os.environ.get], [import],
    binding a socket, and of [BaseHTTPRequestHandler] the methods a request
    goes through: [handle], [handle_one_request], [parse_request],
    [send_error], [send_response], [send_header] and [end_headers]. *)

From Stdlib Require Import ZArith Ascii String List Bool Lia DecimalString.
From stdpp Require Import base option list strings gmap.
From Stdlib Require DecimalFacts DecimalPos.

Local Open Scope Z_scope.

(** ** Python values and exceptions *)

Module Py.

(** [errno] values [socket.bind] reports through [OSError]. *)
Inductive errno := EADDRINUSE | EACCES.

(** The exceptions the program meets; [Exception name] is any other one,
    by the name of its class (a module that is imported may raise it). *)
Inductive exn :=
| ModuleNotFoundError (name : string)
| ValueError
| OverflowError
| OSError (e : errno)
| Exception (name : string).

(** A computation that returns or raises. *)
Inductive result (A : Type) :=
| Ok (a : A)
| Raise (e : exn).
Arguments Ok {A} a.
Arguments Raise {A} e.

#[export] Instance result_ret : MRet result := fun _ a => Ok a.
#[export] Instance result_bind : MBind result := fun _ _ f m =>
  match m with
  | Ok a => f a
  | Raise e => Raise e
  end.

(** The two kinds of value [os.environ.get("PORT", 8080)] can return. *)
Inductive value :=
| Str (s : string)
| Int (z : Z).

(** *** Characters *)

Definition ord (c : ascii) : Z := Z.of_nat (nat_of_ascii c).

(** [Py_ISSPACE]: space, and tab to carriage return. *)
Definition isspace (c : ascii) : bool :=
  (ord c =? 32) || ((9 <=? ord c) && (ord c <=? 13)).

Definition isdigit (c : ascii) : bool :=
  (48 <=? ord c) && (ord c <=? 57).

Definition digit_value (c : ascii) : Z := ord c - 48.

Definition is_underscore (c : ascii) : bool := ord c =? 95.

Definition isascii (s : string) : bool :=
  forallb (fun c => ord c <? 128) (list_ascii_of_string s).

Definition no_digit (c : ascii) : Prop := isdigit c = false.

(** No character of [s] is a decimal digit. *)
Definition has_no_digit (s : string) : bool :=
  forallb (fun c => negb (isdigit c)) (list_ascii_of_string s).

(** *** [int(str)], base 10

    The scan of [PyLong_FromString]: leading white space, one optional
    sign, digits with single underscores between them, trailing white
    space, end of text.  A literal of more than [int_max_str_digits]
    digits is refused as well.  On text outside ASCII the interpreter
    first maps Unicode digits and spaces to ASCII ones; the embedding
    covers ASCII text, which the statements below ask for. *)

Definition int_max_str_digits : nat := 4300.

Fixpoint skip_space (p : list ascii) : list ascii :=
  match p with
  | c :: p' => if isspace c then skip_space p' else p
  | [] => []
  end.

(** The digit loop: [prev] tells whether the previous character was an
    underscore, [digits] counts the digits seen, [acc] is their value.
    It stops at the first character that is neither, and fails on a
    doubled or trailing underscore. *)
Fixpoint scan_digits (p : list ascii) (prev : bool) (digits : nat) (acc : Z)
  : option (list ascii * nat * Z) :=
  match p with
  | c :: p' =>
      if isdigit c then scan_digits p' false (S digits) (10 * acc + digit_value c)
      else if is_underscore c then
        if prev then None else scan_digits p' true digits acc
      else if prev then None else Some (p, digits, acc)
  | [] => if prev then None else Some ([], digits, acc)
  end.

Definition read_sign (p : list ascii) : Z * list ascii :=
  match p with
  | c :: p' =>
      if ord c =? 43 then (1, p')
      else if ord c =? 45 then (-1, p')
      else (1, p)
  | [] => (1, p)
  end.

(** From the first digit on: no leading underscore, at least one digit,
    nothing but white space after the last one. *)
Definition read_digits (sign : Z) (p : list ascii) : result Z :=
  match p with
  | c :: _ =>
      if is_underscore c then Raise ValueError else
      match scan_digits p false 0 0 with
      | None => Raise ValueError
      | Some (rest, digits, acc) =>
          match digits, skip_space rest with
          | O, _ => Raise ValueError
          | _, _ :: _ => Raise ValueError
          | _, [] =>
              if (int_max_str_digits <? digits)%nat then Raise ValueError
              else Ok (sign * acc)
          end
      end
  | [] => Raise ValueError
  end.

Definition long_from_string (p : list ascii) : result Z :=
  let '(sign, p) := read_sign (skip_space p) in
  read_digits sign p.

(** [int(x)] for the two kinds of argument the program passes. *)
Definition int (x : value) : result Z :=
  match x with
  | Int z => Ok z
  | Str s => long_from_string (list_ascii_of_string s)
  end.

(** [str(n)], as the f-string formats the port. *)
Definition str (n : Z) : string := NilZero.string_of_int (Z.to_int n).

End Py.

Import Py.

(** ** The process environment *)

(** What the program reads from outside: the environment variables, the
    top-level modules that are found besides the standard library, what
    running the code of such a module raises (a module that is found can
    still fail, for instance on a dependency of its own), and the answer
    of the operating system to [bind] on a port in range ([None]: the
    port is free). [ephemeral_port] is the port the system picks when
    asked for port 0. *)
Record Env := {
  environ : gmap string string;
  site_packages : gset string;
  import_error : string -> option exn;
  bind_errno : Z -> option errno;
  ephemeral_port : Z;
}.

(** [os.environ.get(key, default)] *)
Definition environ_get (e : gmap string string) (key : string) (default : value) : value :=
  match e !! key with
  | Some s => Str s
  | None => default
  end.

(** Modules of the standard library the program imports. *)
Definition stdlib : gset string := {[ "http.server"; "json"; "os" ]}.

(** [import name]: a module of the standard library is there; another
    one must be found, and then its code runs. *)
Definition import (env : Env) (name : string) : result unit :=
  if decide (name ∈ stdlib) then Ok tt
  else if decide (name ∈ site_packages env) then
    match import_error env name with
    | Some e => Raise e
    | None => Ok tt
    end
  else Raise (ModuleNotFoundError name).

(** The top-level modules a distribution installs.  The distribution
    [pyyaml] installs the module [yaml] (the source says so on line 10:
    "imported as yaml but pkg is pyyaml"). *)
Definition top_level (dist : string) : list string :=
  if String.eqb dist "pyyaml" then ["yaml"; "_yaml"] else [dist].

Definition installed (dists : list string) : gset string :=
  list_to_set (concat (map top_level dists)).

(** ** The listening socket *)

Record Server := { server_address : string * Z }.

(** [socket.bind((host, port))]: the port must be 0-65535, then the
    operating system decides. *)
Definition socket_bind (env : Env) (address : string * Z) : result (string * Z) :=
  let '(host, port) := address in
  if (port <? 0) || (65535 <? port) then Raise OverflowError
  else match bind_errno env port with
       | Some e => Raise (OSError e)
       | None => Ok (host, if port =? 0 then ephemeral_port env else port)
       end.

(** [HTTPServer(server_address, HealthHandler)]: bind and listen. *)
Definition HTTPServer (env : Env) (address : string * Z) : result Server :=
  bound ← socket_bind env address;
  mret {| server_address := bound |}.

(** ** Module body *)

(** Line 32. *)
Definition port_of (env : Env) : result Z :=
  int (environ_get (environ env) "PORT" (Int 8080)).

(** Lines 32-34: the server that [serve_forever] is then called on, and
    what was printed. *)
Definition main (env : Env) : result (Server * list string) :=
  port ← port_of env;
  server ← HTTPServer env ("0.0.0.0", port);
  mret (server, ["Server running on port " +:+ str port]).

(** Lines 3-11. *)
Definition imports (env : Env) : result unit :=
  _ ← import env "http.server";
  _ ← import env "json";
  _ ← import env "os";
  _ ← import env "flask";
  _ ← import env "requests";
  _ ← import env "pyyaml";
  import env "cryptography".

(** The module run under the name [name]: [None] when the [__main__]
    block is skipped. *)
Definition app (name : string) (env : Env) : result (option (Server * list string)) :=
  _ ← imports env;
  if String.eqb name "__main__" then r ← main env; mret (Some r)
  else mret None.

(** The same module with lines 8-11 deleted. *)
Definition app_without_decorative_imports (name : string) (env : Env)
  : result (option (Server * list string)) :=
  _ ← import env "http.server";
  _ ← import env "json";
  _ ← import env "os";
  if String.eqb name "__main__" then r ← main env; mret (Some r)
  else mret None.

(** An exception nobody catches ends the process with status 1; a process
    that reached [serve_forever] has no exit status of its own. *)
Definition exit_status {A} (r : result A) : option Z :=
  match r with
  | Ok _ => None
  | Raise _ => Some 1
  end.

(** *** Sample environments *)

Definition all_free : Z -> option errno := fun _ => None.

Definition env_unset : Env :=
  {| environ := ∅;
     site_packages := installed ["flask"; "requests"; "pyyaml"; "cryptography"];
     import_error := fun _ => None;
     bind_errno := all_free; ephemeral_port := 49152 |}.

Definition env_port (s : string) : Env :=
  {| environ := {[ "PORT" := s ]};
     site_packages := installed ["flask"; "requests"; "pyyaml"; "cryptography"];
     import_error := fun _ => None;
     bind_errno := all_free; ephemeral_port := 49152 |}.

Definition env_busy (s : string) (p : Z) : Env :=
  {| environ := {[ "PORT" := s ]};
     site_packages := installed ["flask"; "requests"; "pyyaml"; "cryptography"];
     import_error := fun _ => None;
     bind_errno := fun q => if q =? p then Some EADDRINUSE else None;
     ephemeral_port := 49152 |}.

(** An environment where [flask] is found but its own import of
    [werkzeug] fails. *)
Definition env_flask_broken : Env :=
  {| environ := ∅;
     site_packages := installed ["flask"; "requests"; "pyyaml"; "cryptography"];
     import_error := fun name =>
       if String.eqb name "flask" then Some (ModuleNotFoundError "werkzeug") else None;
     bind_errno := all_free; ephemeral_port := 49152 |}.

(** An environment where a module [pyyaml] can be imported, [PORT] is
    [s] and every port is taken. *)
Definition env_importable (s : string) : Env :=
  {| environ := {[ "PORT" := s ]};
     site_packages := {[ "flask"; "requests"; "pyyaml"; "cryptography" ]};
     import_error := fun _ => None;
     bind_errno := fun _ => Some EADDRINUSE; ephemeral_port := 49152 |}.

(** ** [json.dumps] and [json.loads] *)

Module Json.

(** The Python values [json] converts; a [dict] keeps insertion order. *)
#[local] Unset Elimination Schemes.
Inductive json :=
| JNone
| JBool (b : bool)
| JInt (z : Z)
| JStr (s : string)
| JList (l : list json)
| JDict (l : list (string * json)).
#[local] Set Elimination Schemes.

Definition chr (n : Z) : ascii := ascii_of_nat (Z.to_nat n).

Definition quote : string := String (chr 34) EmptyString.

Definition hex_digit (n : Z) : ascii :=
  if n <? 10 then chr (48 + n) else chr (87 + n).

(** One character of [py_encode_basestring_ascii]: everything outside
    space..tilde is escaped, and so are the quote and the backslash. *)
Definition escape (c : ascii) : string :=
  let n := ord c in
  if n =? 34 then String (chr 92) quote
  else if n =? 92 then "\\"
  else if n =? 10 then "\n"
  else if n =? 13 then "\r"
  else if n =? 9 then "\t"
  else if n =? 12 then "\f"
  else if n =? 8 then "\b"
  else if (32 <=? n) && (n <=? 126) then String c EmptyString
  else "\u00" +:+ String (hex_digit (n / 16)) (String (hex_digit (n mod 16)) EmptyString).

Fixpoint escape_all (s : string) : string :=
  match s with
  | EmptyString => EmptyString
  | String c s' => escape c +:+ escape_all s'
  end.

Definition encode_basestring_ascii (s : string) : string :=
  quote +:+ escape_all s +:+ quote.

(** [sep.join(items)] *)
Fixpoint join (sep : string) (items : list string) : string :=
  match items with
  | [] => EmptyString
  | [x] => x
  | x :: rest => x +:+ sep +:+ join sep rest
  end.

(** [json.dumps(obj)] with the default separators [", "] and [": "]. *)
Fixpoint dumps (obj : json) : string :=
  match obj with
  | JNone => "null"
  | JBool true => "true"
  | JBool false => "false"
  | JInt z => str z
  | JStr s => encode_basestring_ascii s
  | JList l => "[" +:+ join ", " (map dumps l) +:+ "]"
  | JDict l =>
      "{" +:+ join ", " (map (fun kv => encode_basestring_ascii (fst kv) +:+ ": " +:+ dumps (snd kv)) l) +:+ "}"
  end.

(** [str.encode()]: UTF-8 of code points below 256. *)
Fixpoint encode (s : string) : string :=
  match s with
  | EmptyString => EmptyString
  | String c s' =>
      let n := ord c in
      if n <? 128 then String c (encode s')
      else String (chr (192 + n / 64)) (String (chr (128 + n mod 64)) (encode s'))
  end.

(** *** Reading a document back

    A reader for the documents [dumps] writes: objects, arrays, strings
    with the two-character escapes, integers, [true], [false], [null],
    with JSON white space between tokens.  Fractions, exponents and
    [\u] escapes are not read. *)

Definition is_ws (c : ascii) : bool :=
  let n := ord c in (n =? 32) || (n =? 9) || (n =? 10) || (n =? 13).

Fixpoint skip_ws (p : list ascii) : list ascii :=
  match p with
  | c :: p' => if is_ws c then skip_ws p' else p
  | [] => []
  end.

Definition unescape (c : ascii) : option ascii :=
  let n := ord c in
  if (n =? 34) || (n =? 92) || (n =? 47) then Some c
  else if n =? 110 then Some (chr 10)
  else if n =? 114 then Some (chr 13)
  else if n =? 116 then Some (chr 9)
  else if n =? 102 then Some (chr 12)
  else if n =? 98 then Some (chr 8)
  else None.

(** After the opening quote: the text up to the closing quote. *)
Fixpoint scan_string (p : list ascii) : option (string * list ascii) :=
  match p with
  | [] => None
  | c :: p' =>
      if ord c =? 34 then Some (EmptyString, p')
      else if ord c =? 92 then
        match p' with
        | e :: p'' =>
            d ← unescape e;
            '(s, rest) ← scan_string p'';
            Some (String d s, rest)
        | [] => None
        end
      else if ord c <? 32 then None
      else '(s, rest) ← scan_string p'; Some (String c s, rest)
  end.

Fixpoint scan_number (p : list ascii) (acc : Z) : Z * list ascii :=
  match p with
  | c :: p' => if isdigit c then scan_number p' (10 * acc + digit_value c) else (acc, p)
  | [] => (acc, [])
  end.

Definition starts_number_tail (p : list ascii) : bool :=
  match p with
  | c :: _ => (ord c =? 46) || (ord c =? 101) || (ord c =? 69)
  | [] => false
  end.

(** A later occurrence of a key replaces the earlier one, as in a [dict]. *)
Fixpoint dict_set (k : string) (v : json) (d : list (string * json)) : list (string * json) :=
  match d with
  | [] => [(k, v)]
  | (k', v') :: d' => if String.eqb k k' then (k, v) :: d' else (k', v') :: dict_set k v d'
  end.

Fixpoint scan_value (fuel : nat) (p : list ascii) : option (json * list ascii) :=
  match fuel with
  | O => None
  | S fuel =>
      match skip_ws p with
      | [] => None
      | c :: p' =>
          let n := ord c in
          if n =? 34 then '(s, rest) ← scan_string p'; Some (JStr s, rest)
          else if n =? 123 then
            match skip_ws p' with
            | c' :: q => if ord c' =? 125 then Some (JDict [], q) else scan_members fuel p' []
            | [] => None
            end
          else if n =? 91 then
            match skip_ws p' with
            | c' :: q => if ord c' =? 93 then Some (JList [], q) else scan_elements fuel p' []
            | [] => None
            end
          else if n =? 45 then
            match p' with
            | d :: _ =>
                if isdigit d then
                  let '(z, rest) := scan_number p' 0 in
                  if starts_number_tail rest then None else Some (JInt (- z), rest)
                else None
            | [] => None
            end
          else if isdigit c then
            let '(z, rest) := scan_number (c :: p') 0 in
            if starts_number_tail rest then None else Some (JInt z, rest)
          else
            match c :: p' with
            | "t" :: "r" :: "u" :: "e" :: rest => Some (JBool true, rest)
            | "f" :: "a" :: "l" :: "s" :: "e" :: rest => Some (JBool false, rest)
            | "n" :: "u" :: "l" :: "l" :: rest => Some (JNone, rest)
            | _ => None
            end%char
      end
  end
with scan_members (fuel : nat) (p : list ascii) (acc : list (string * json))
  : option (json * list ascii) :=
  match fuel with
  | O => None
  | S fuel =>
      match skip_ws p with
      | c :: p' =>
          if ord c =? 34 then
            '(k, rest) ← scan_string p';
            match skip_ws rest with
            | colon :: rest' =>
                if ord colon =? 58 then
                  '(v, rest'') ← scan_value fuel rest';
                  match skip_ws rest'' with
                  | d :: q =>
                      if ord d =? 44 then scan_members fuel q (dict_set k v acc)
                      else if ord d =? 125 then Some (JDict (dict_set k v acc), q)
                      else None
                  | [] => None
                  end
                else None
            | [] => None
            end
          else None
      | [] => None
      end
  end
with scan_elements (fuel : nat) (p : list ascii) (acc : list json)
  : option (json * list ascii) :=
  match fuel with
  | O => None
  | S fuel =>
      '(v, rest) ← scan_value fuel p;
      match skip_ws rest with
      | d :: q =>
          if ord d =? 44 then scan_elements fuel q (acc ++ [v])
          else if ord d =? 93 then Some (JList (acc ++ [v]), q)
          else None
      | [] => None
      end
  end.

(** [json.loads(s)]: one value and nothing but white space after it.
    The fuel bounds the depth of the calls; it is taken from the length
    of the text. *)
Definition loads (s : string) : option json :=
  let p := list_ascii_of_string s in
  '(v, rest) ← scan_value (S (length p)) p;
  match skip_ws rest with
  | [] => Some v
  | _ :: _ => None
  end.

End Json.

(** ** Text as [http.server] handles it

    The request line is decoded as ISO-8859-1, so a character is a code
    point below 256. *)

Module Text.

(** [str.isspace] *)
Definition isspace (c : ascii) : bool :=
  let n := ord c in
  ((9 <=? n) && (n <=? 13)) || ((28 <=? n) && (n <=? 32)) || (n =? 133) || (n =? 160).

Fixpoint rev_append (s acc : string) : string :=
  match s with
  | EmptyString => acc
  | String c s' => rev_append s' (String c acc)
  end.

Definition rev (s : string) : string := rev_append s EmptyString.

(** [s.split()]: the words between runs of white space; [word] holds the
    characters of the word being read, last first. *)
Fixpoint split_from (s word : string) : list string :=
  match s with
  | EmptyString =>
      match word with
      | EmptyString => []
      | _ => [rev word]
      end
  | String c s' =>
      if isspace c then
        match word with
        | EmptyString => split_from s' EmptyString
        | _ => rev word :: split_from s' EmptyString
        end
      else split_from s' (String c word)
  end.

Definition split (s : string) : list string := split_from s EmptyString.

(** [s.split(sep)] for a separator of one character. *)
Fixpoint split_on_from (sep : ascii) (s word : string) : list string :=
  match s with
  | EmptyString => [rev word]
  | String c s' =>
      if Ascii.eqb c sep then rev word :: split_on_from sep s' EmptyString
      else split_on_from sep s' (String c word)
  end.

Definition split_on (sep : ascii) (s : string) : list string :=
  split_on_from sep s EmptyString.

(** [s.split(sep, 1)[1]]: what follows the first [sep]; [None] stands
    for the [IndexError] when there is none. *)
Fixpoint after_first (sep : ascii) (s : string) : option string :=
  match s with
  | EmptyString => None
  | String c s' => if Ascii.eqb c sep then Some s' else after_first sep s'
  end.

(** [s.rstrip('\r\n')] *)
Fixpoint rstrip_crlf (s : string) : string :=
  match s with
  | EmptyString => EmptyString
  | String c s' =>
      match rstrip_crlf s' with
      | EmptyString =>
          if (ord c =? 13) || (ord c =? 10) then EmptyString else String c EmptyString
      | t => String c t
      end
  end.

(** [s.lstrip(c)] for one character. *)
Fixpoint lstrip (c : ascii) (s : string) : string :=
  match s with
  | EmptyString => EmptyString
  | String d s' => if Ascii.eqb d c then lstrip c s' else s
  end.

(** [s.lower()] *)
Definition lower_char (c : ascii) : ascii :=
  let n := ord c in
  if ((65 <=? n) && (n <=? 90)) || ((192 <=? n) && (n <=? 222) && negb (n =? 215))
  then Json.chr (n + 32) else c.

Fixpoint lower (s : string) : string :=
  match s with
  | EmptyString => EmptyString
  | String c s' => String (lower_char c) (lower s')
  end.

(** [a >= b] on strings *)
Definition ge (a b : string) : bool := String.leb b a.

Fixpoint contains (c : ascii) (s : string) : bool :=
  match s with
  | EmptyString => false
  | String d s' => Ascii.eqb d c || contains c s'
  end.

(** [str.isprintable] *)
Definition isprintable (c : ascii) : bool :=
  let n := ord c in
  ((32 <=? n) && (n <=? 126)) || ((161 <=? n) && (n <=? 172)) || (174 <=? n).

Definition hex2 (c : ascii) : string :=
  String (Json.hex_digit (ord c / 16)) (String (Json.hex_digit (ord c mod 16)) EmptyString).

(** One character of [repr(s)] between the quotes [q]. *)
Definition repr_char (q c : ascii) : string :=
  let n := ord c in
  if Ascii.eqb c q || (n =? 92) then String (Json.chr 92) (String c EmptyString)
  else if n =? 9 then "\t"
  else if n =? 10 then "\n"
  else if n =? 13 then "\r"
  else if isprintable c then String c EmptyString
  else "\x" +:+ hex2 c.

Fixpoint repr_chars (q : ascii) (s : string) : string :=
  match s with
  | EmptyString => EmptyString
  | String c s' => repr_char q c +:+ repr_chars q s'
  end.

(** [repr(s)], which [%r] writes: single quotes, or double quotes when
    the text holds a single quote and no double one. *)
Definition repr (s : string) : string :=
  let q := if contains "'" s && negb (contains (Json.chr 34) s) then Json.chr 34 else "'"%char in
  String q (repr_chars q s +:+ String q EmptyString).

End Text.

(** ** [http.server]: what the handler class inherits *)

(** What [parse_headers] makes of the lines after the request line: the
    values of the Connection and Expect fields (empty when absent), or
    one of its two failures. *)
Inductive header_block :=
| Headers (connection expect : string)
| LineTooLong
| TooManyHeaders.

(** One request as it arrives: the time, the line [rfile.readline(65537)]
    returns, and the header lines after it. *)
Record RawRequest := {
  arrival : nat;
  raw_line : string;
  raw_headers : header_block;
}.

(** What is written after the headers: bytes, or the error page the base
    class renders for [send_error]. *)
Inductive payload :=
| Bytes (b : string)
| ErrorPage (code : Z) (message explain : string).

(** Header values: text the handler gives, or a value the base class
    computes itself. *)
Inductive header_value :=
| Text (s : string)
| version_string
| date_time_string (timestamp : nat)
| content_length (p : payload).

Inductive header_line :=
| StatusLine (code : Z) (message : string)
| Header (keyword : string) (value : header_value).

(** Writes to [wfile], in order: a flushed header block or a body write. *)
Inductive chunk :=
| Head (lines : list header_line)
| Body (p : payload).

(** A line [log_message] of the base class writes to [sys.stderr]. *)
Record log_line := {
  log_address : string;
  log_time : nat;
  log_text : string;
}.

(** The handler instance, with the part of the world it can write to.
    [command], [path], [request_version] and [requestline] are what
    [parse_request] stores; before it has run they are empty here ([None]
    is written as the empty text: the class only compares the command
    with [HEAD] and appends it to [do_]). *)
Record Handler := {
  client_address : string;
  raw_requestline : string;
  rfile_headers : header_block;
  now : nat;
  requestline : string;
  command : string;
  path : string;
  request_version : string;
  close_connection : bool;
  _headers_buffer : list header_line;
  wfile : list chunk;
  stderr : list log_line;
}.

Definition set_raw (raw : RawRequest) (self : Handler) : Handler :=
  {| client_address := client_address self; raw_requestline := raw_line raw;
     rfile_headers := raw_headers raw; now := arrival raw;
     requestline := requestline self; command := command self; path := path self;
     request_version := request_version self; close_connection := close_connection self;
     _headers_buffer := _headers_buffer self; wfile := wfile self; stderr := stderr self |}.

Definition set_raw_requestline (line : string) (self : Handler) : Handler :=
  {| client_address := client_address self; raw_requestline := line;
     rfile_headers := rfile_headers self; now := now self;
     requestline := requestline self; command := command self; path := path self;
     request_version := request_version self; close_connection := close_connection self;
     _headers_buffer := _headers_buffer self; wfile := wfile self; stderr := stderr self |}.

Definition set_requestline (line : string) (self : Handler) : Handler :=
  {| client_address := client_address self; raw_requestline := raw_requestline self;
     rfile_headers := rfile_headers self; now := now self;
     requestline := line; command := command self; path := path self;
     request_version := request_version self; close_connection := close_connection self;
     _headers_buffer := _headers_buffer self; wfile := wfile self; stderr := stderr self |}.

Definition set_command (c : string) (self : Handler) : Handler :=
  {| client_address := client_address self; raw_requestline := raw_requestline self;
     rfile_headers := rfile_headers self; now := now self;
     requestline := requestline self; command := c; path := path self;
     request_version := request_version self; close_connection := close_connection self;
     _headers_buffer := _headers_buffer self; wfile := wfile self; stderr := stderr self |}.

Definition set_path (p : string) (self : Handler) : Handler :=
  {| client_address := client_address self; raw_requestline := raw_requestline self;
     rfile_headers := rfile_headers self; now := now self;
     requestline := requestline self; command := command self; path := p;
     request_version := request_version self; close_connection := close_connection self;
     _headers_buffer := _headers_buffer self; wfile := wfile self; stderr := stderr self |}.

Definition set_request_version (v : string) (self : Handler) : Handler :=
  {| client_address := client_address self; raw_requestline := raw_requestline self;
     rfile_headers := rfile_headers self; now := now self;
     requestline := requestline self; command := command self; path := path self;
     request_version := v; close_connection := close_connection self;
     _headers_buffer := _headers_buffer self; wfile := wfile self; stderr := stderr self |}.

Definition set_close_connection (b : bool) (self : Handler) : Handler :=
  {| client_address := client_address self; raw_requestline := raw_requestline self;
     rfile_headers := rfile_headers self; now := now self;
     requestline := requestline self; command := command self; path := path self;
     request_version := request_version self; close_connection := b;
     _headers_buffer := _headers_buffer self; wfile := wfile self; stderr := stderr self |}.

Definition set_headers_buffer (b : list header_line) (self : Handler) : Handler :=
  {| client_address := client_address self; raw_requestline := raw_requestline self;
     rfile_headers := rfile_headers self; now := now self;
     requestline := requestline self; command := command self; path := path self;
     request_version := request_version self; close_connection := close_connection self;
     _headers_buffer := b; wfile := wfile self; stderr := stderr self |}.

(** [self.wfile.write(data)] *)
Definition wfile_write (c : chunk) (self : Handler) : Handler :=
  {| client_address := client_address self; raw_requestline := raw_requestline self;
     rfile_headers := rfile_headers self; now := now self;
     requestline := requestline self; command := command self; path := path self;
     request_version := request_version self; close_connection := close_connection self;
     _headers_buffer := _headers_buffer self; wfile := wfile self ++ [c];
     stderr := stderr self |}.

Definition stderr_write (l : log_line) (self : Handler) : Handler :=
  {| client_address := client_address self; raw_requestline := raw_requestline self;
     rfile_headers := rfile_headers self; now := now self;
     requestline := requestline self; command := command self; path := path self;
     request_version := request_version self; close_connection := close_connection self;
     _headers_buffer := _headers_buffer self; wfile := wfile self;
     stderr := stderr self ++ [l] |}.

(** [format % args] for the [%s] and [%d] fields the base class uses. *)
Fixpoint percent (format : list ascii) (args : list string) : string :=
  match format with
  | [] => EmptyString
  | c :: rest =>
      match rest with
      | d :: rest' =>
          if (ord c =? 37) && ((ord d =? 115) || (ord d =? 100)) then
            match args with
            | a :: args' => a +:+ percent rest' args'
            | [] => percent rest' []
            end
          else String c (percent rest args)
      | [] => String c EmptyString
      end
  end.

(** [responses[code]]: short and long message, for the codes the class
    sends. *)
Definition responses (code : Z) : option (string * string) :=
  if code =? 100 then Some ("Continue", "Request received, please continue")
  else if code =? 200 then Some ("OK", "Request fulfilled, document follows")
  else if code =? 400 then Some ("Bad Request", "Bad request syntax or unsupported method")
  else if code =? 414 then Some ("Request-URI Too Long", "URI is too long")
  else if code =? 431 then
    Some ("Request Header Fields Too Large",
          "The server is unwilling to process the request because its header fields are too large")
  else if code =? 501 then Some ("Not Implemented", "Server does not support this operation")
  else if code =? 505 then Some ("HTTP Version Not Supported", "Cannot fulfill request")
  else None.

(** Class attributes the handler class does not override. *)
Definition default_request_version : string := "HTTP/0.9".
Definition protocol_version : string := "HTTP/1.0".

(** The version word of a request line: its text after [HTTP/] and the
    two numbers; [None] stands for the [ValueError] or [IndexError] the
    [try] block catches.  The words of a request line hold no white
    space, and ISO-8859-1 has no decimal digit outside ASCII, so [int] is
    the one above. *)
Definition parse_version (version : string) : option (string * Z * Z) :=
  if negb (String.prefix "HTTP/" version) then None
  else
    match Text.after_first "/" version with
    | None => None
    | Some base_version_number =>
        match Text.split_on "." base_version_number with
        | [major; minor] =>
            match int (Str major), int (Str minor) with
            | Ok x, Ok y => Some (base_version_number, x, y)
            | _, _ => None
            end
        | _ => None
        end
    end.

(** [(a, b) >= (c, d)] on pairs of integers. *)
Definition pair_ge (v w : Z * Z) : bool :=
  (fst w <? fst v) || ((fst v =? fst w) && (snd w <=? snd v)).

(** The methods of the base class that call [self.log_message]; which
    function that is depends on the class of [self]. *)
Section Inherited.

Variable log_message : string -> list string -> Handler -> Handler.

Definition log_request (code : Z) (self : Handler) : Handler :=
  log_message (Json.quote +:+ "%s" +:+ Json.quote +:+ " %s %s")
    [requestline self; str code; "-"] self.

Definition log_error (format : string) (args : list string) (self : Handler) : Handler :=
  log_message format args self.

Definition send_response_only (code : Z) (message : option string) (self : Handler) : Handler :=
  if String.eqb (request_version self) "HTTP/0.9" then self
  else
    let message :=
      match message with
      | Some m => m
      | None => match responses code with Some (short, _) => short | None => EmptyString end
      end in
    set_headers_buffer (_headers_buffer self ++ [StatusLine code message]) self.

Definition send_header (keyword : string) (value : header_value) (self : Handler) : Handler :=
  let self :=
    if String.eqb (request_version self) "HTTP/0.9" then self
    else set_headers_buffer (_headers_buffer self ++ [Header keyword value]) self in
  if String.eqb (Text.lower keyword) "connection" then
    match value with
    | Text v =>
        if String.eqb (Text.lower v) "close" then set_close_connection true self
        else if String.eqb (Text.lower v) "keep-alive" then set_close_connection false self
        else self
    | _ => self
    end
  else self.

(** The blank line is the end of the [Head] chunk. *)
Definition end_headers (self : Handler) : Handler :=
  if String.eqb (request_version self) "HTTP/0.9" then self
  else set_headers_buffer [] (wfile_write (Head (_headers_buffer self)) self).

Definition send_response (code : Z) (message : option string) (self : Handler) : Handler :=
  let self := log_request code self in
  let self := send_response_only code message self in
  let self := send_header "Server" version_string self in
  send_header "Date" (date_time_string (now self)) self.

Definition send_error (code : Z) (message explain : option string) (self : Handler) : Handler :=
  let '(shortmsg, longmsg) :=
    match responses code with Some p => p | None => ("???", "???") end in
  let message := match message with Some m => m | None => shortmsg end in
  let explain := match explain with Some x => x | None => longmsg end in
  let self := log_error "code %d, message %s" [str code; message] self in
  let self := send_response code (Some message) self in
  let self := send_header "Connection" (Text "close") self in
  if (200 <=? code) && negb ((code =? 204) || (code =? 205) || (code =? 304)) then
    let content := ErrorPage code message explain in
    let self := send_header "Content-Type" (Text "text/html;charset=utf-8") self in
    let self := send_header "Content-Length" (content_length content) self in
    let self := end_headers self in
    if String.eqb (command self) "HEAD" then self
    else wfile_write (Body content) self
  else end_headers self.

Definition handle_expect_100 (self : Handler) : Handler * bool :=
  let self := send_response_only 100 None self in
  (end_headers self, true).

(** The part of [parse_request] for a line of three words or more: the
    handler after it, on the left when an error was sent. *)
Definition parse_request_version (words : list string) (self : Handler) : Handler + Handler :=
  if (3 <=? length words)%nat then
    let version := List.last words EmptyString in
    match parse_version version with
    | None =>
        inl (send_error 400 (Some ("Bad request version (" +:+ Text.repr version +:+ ")")) None
               self)
    | Some (base_version_number, major, minor) =>
        let self :=
          if pair_ge (major, minor) (1, 1) && Text.ge protocol_version "HTTP/1.1"
          then set_close_connection false self else self in
        if pair_ge (major, minor) (2, 0) then
          inl (send_error 505 (Some ("Invalid HTTP version (" +:+ base_version_number +:+ ")"))
                 None self)
        else inr (set_request_version version self)
    end
  else inr self.

(** The part of [parse_request] after the request line. *)
Definition parse_request_headers (self : Handler) : Handler * bool :=
  match rfile_headers self with
  | LineTooLong =>
      (send_error 431 (Some "Line too long")
         (Some "got more than 65536 bytes when reading header line") self, false)
  | TooManyHeaders =>
      (send_error 431 (Some "Too many headers") (Some "got more than 100 headers") self, false)
  | Headers conntype expect =>
      let self :=
        if String.eqb (Text.lower conntype) "close" then set_close_connection true self
        else if String.eqb (Text.lower conntype) "keep-alive"
                && Text.ge protocol_version "HTTP/1.1"
        then set_close_connection false self
        else self in
      if String.eqb (Text.lower expect) "100-continue"
         && Text.ge protocol_version "HTTP/1.1"
         && Text.ge (request_version self) "HTTP/1.1"
      then handle_expect_100 self
      else (self, true)
  end.

(** [parse_request]: the handler after it and what it returns. *)
Definition parse_request (self : Handler) : Handler * bool :=
  let self := set_command EmptyString self in
  let self := set_request_version default_request_version self in
  let self := set_close_connection true self in
  let requestline := Text.rstrip_crlf (raw_requestline self) in
  let self := set_requestline requestline self in
  let words := Text.split requestline in
  match words with
  | [] => (self, false)
  | _ :: _ =>
      match parse_request_version words self with
      | inl self => (self, false)
      | inr self =>
          match words with
          | [word0; word1] =>
              let self := set_close_connection true self in
              if negb (String.eqb word0 "GET") then
                (send_error 400
                   (Some ("Bad HTTP/0.9 request type (" +:+ Text.repr word0 +:+ ")")) None
                   self, false)
              else
                let self := set_path word1 (set_command word0 self) in
                let self :=
                  if String.prefix "//" (path self)
                  then set_path ("/" +:+ Text.lstrip "/" (path self)) self else self in
                parse_request_headers self
          | [word0; word1; _] =>
              let self := set_path word1 (set_command word0 self) in
              let self :=
                if String.prefix "//" (path self)
                then set_path ("/" +:+ Text.lstrip "/" (path self)) self else self in
              parse_request_headers self
          | _ =>
              (send_error 400
                 (Some ("Bad request syntax (" +:+ Text.repr requestline +:+ ")")) None self,
               false)
          end
      end
  end.

(** [handle_one_request], the line already read into [raw_requestline]
    (empty at the end of the stream): [lookup] is [getattr] on the
    instance, [None] where [hasattr] is false.  No read or write times
    out: the class sets no timeout. *)
Definition handle_one_request (lookup : string -> option (Handler -> Handler))
    (self : Handler) : Handler :=
  if 65536 <? Z.of_nat (String.length (raw_requestline self)) then
    let self := set_requestline EmptyString self in
    let self := set_request_version EmptyString self in
    let self := set_command EmptyString self in
    send_error 414 None None self
  else if String.eqb (raw_requestline self) EmptyString then
    set_close_connection true self
  else
    let '(self, ok) := parse_request self in
    if negb ok then self
    else
      let mname := "do_" +:+ command self in
      match lookup mname with
      | None =>
          send_error 501 (Some ("Unsupported method (" +:+ Text.repr (command self) +:+ ")"))
            None self
      | Some method => method self
      end.

(** The loop of [handle]: one request, and further ones while
    [close_connection] is false; reading past the last line sent gives
    the empty line. *)
Fixpoint handle_requests (lookup : string -> option (Handler -> Handler))
    (rfile : list RawRequest) (self : Handler) : Handler :=
  match rfile with
  | [] => handle_one_request lookup (set_raw_requestline EmptyString self)
  | raw :: rest =>
      let self := handle_one_request lookup (set_raw raw self) in
      if close_connection self then self else handle_requests lookup rest self
  end.

Definition handle (lookup : string -> option (Handler -> Handler))
    (rfile : list RawRequest) (self : Handler) : Handler :=
  handle_requests lookup rfile (set_close_connection true self).

End Inherited.

(** A handler class: the attributes [handle_one_request] looks up. *)
Record HandlerClass := {
  cls_log_message : string -> list string -> Handler -> Handler;
  cls_getattr : string -> option (Handler -> Handler);
}.

(** The base class: it logs to [sys.stderr] and has no [do_] method. *)
Module BaseHTTPRequestHandler.

(** [message.translate(self._control_char_table)] *)
Fixpoint translate (s : string) : string :=
  match s with
  | EmptyString => EmptyString
  | String c s' =>
      let n := ord c in
      (if n =? 92 then "\\"
       else if (n <? 32) || ((127 <=? n) && (n <? 160)) then "\x" +:+ Text.hex2 c
       else String c EmptyString) +:+ translate s'
  end.

Definition log_message (format : string) (args : list string) (self : Handler) : Handler :=
  stderr_write {| log_address := client_address self;
                  log_time := now self;
                  log_text := translate (percent (list_ascii_of_string format) args) |} self.

Definition class : HandlerClass :=
  {| cls_log_message := log_message; cls_getattr := fun _ => None |}.

End BaseHTTPRequestHandler.

(** ** [class HealthHandler(BaseHTTPRequestHandler)] *)

Module HealthHandler.

(** Lines 27-28. *)
Definition log_message (format : string) (args : list string) (self : Handler) : Handler :=
  self.

(** Lines 15-25. *)
Definition do_GET (self : Handler) : Handler :=
  if String.eqb (path self) "/health" then
    let self := send_response log_message 200 None self in
    let self := send_header "Content-Type" (Text "application/json") self in
    let self := end_headers self in
    wfile_write (Body (Bytes (Json.encode (Json.dumps (Json.JDict [("status", Json.JStr "ok")]))))) self
  else
    let self := send_response log_message 200 None self in
    let self := send_header "Content-Type" (Text "text/plain") self in
    let self := end_headers self in
    wfile_write (Body (Bytes "Supply Chain POC App")) self.

Definition getattr (name : string) : option (Handler -> Handler) :=
  if String.eqb name "do_GET" then Some do_GET else None.

Definition class : HandlerClass :=
  {| cls_log_message := log_message; cls_getattr := getattr |}.

End HealthHandler.

(** ** The serving loop *)

(** One connection: the address of the client and the requests it sends
    on it, in order. *)
Record Connection := {
  peer : string;
  rfile : list RawRequest;
}.

(** The handler instance made for a connection. *)
Definition new_handler (peer : string) (err : list log_line) : Handler :=
  {| client_address := peer; raw_requestline := EmptyString;
     rfile_headers := Headers EmptyString EmptyString; now := 0%nat;
     requestline := EmptyString; command := EmptyString; path := EmptyString;
     request_version := EmptyString; close_connection := true;
     _headers_buffer := []; wfile := []; stderr := err |}.

(** One connection: a fresh handler instance is made for it, run, and
    dropped; only [sys.stderr] outlives it. *)
Definition finish_request (cls : HandlerClass) (err : list log_line) (conn : Connection)
  : list log_line * list chunk :=
  let self := new_handler (peer conn) err in
  let self := handle (cls_log_message cls) (cls_getattr cls) (rfile conn) self in
  (stderr self, wfile self).

(** [serve_forever] on the connections that are made, one after the
    other: what [sys.stderr] holds afterwards and what each client was
    sent. *)
Fixpoint serve_forever (cls : HandlerClass) (err : list log_line) (incoming : list Connection)
  : list log_line * list (list chunk) :=
  match incoming with
  | [] => (err, [])
  | conn :: rest =>
      let '(err', out) := finish_request cls err conn in
      let '(err'', outs) := serve_forever cls err' rest in
      (err'', out :: outs)
  end.

(** The handler as [parse_request] leaves it for the first request of a
    connection, when [handle_one_request] gets as far as looking up the
    method: [None] for a line that is too long, empty, or refused. *)
Definition accepted (peer : string) (err : list log_line) (raw : RawRequest) : option Handler :=
  let self := set_raw raw (new_handler peer err) in
  if (65536 <? Z.of_nat (String.length (raw_requestline self)))
     || String.eqb (raw_requestline self) EmptyString then None
  else
    let '(self, ok) := parse_request HealthHandler.log_message self in
    if ok then Some self else None.

(** The request target: the second word of the request line. *)
Definition request_target (raw : RawRequest) : option string :=
  Text.split (Text.rstrip_crlf (raw_line raw)) !! 1%nat.

(** What [parse_request] stores in [self.path] for the target [word]: a
    run of slashes at its start, if longer than one, is cut to one. *)
Definition stored_path (word : string) : string :=
  if String.prefix "//" word then "/" +:+ Text.lstrip "/" word else word.

(** [a] and [b] have written the same and are at the same time. *)
Definition untouched (a b : Handler) : Prop :=
  wfile a = wfile b /\ _headers_buffer a = _headers_buffer b /\ stderr a = stderr b /\
  now a = now b /\ client_address a = client_address b.

(** ** The response a client reads *)

Record Response := {
  status : Z;
  reason : string;
  headers : list (string * header_value);
  body : list payload;
}.

Fixpoint header_fields (ls : list header_line) : option (list (string * header_value)) :=
  match ls with
  | [] => Some []
  | Header k v :: ls' => hs ← header_fields ls'; Some ((k, v) :: hs)
  | StatusLine _ _ :: _ => None
  end.

Fixpoint body_parts (cs : list chunk) : option (list payload) :=
  match cs with
  | [] => Some []
  | Body p :: cs' => ps ← body_parts cs'; Some (p :: ps)
  | Head _ :: _ => None
  end.

(** A status line, header fields, then the body. *)
Definition read_response (out : list chunk) : option Response :=
  match out with
  | Head (StatusLine code message :: ls) :: cs =>
      hs ← header_fields ls;
      ps ← body_parts cs;
      Some {| status := code; reason := message; headers := hs; body := ps |}
  | _ => None
  end.

Fixpoint get_header (keyword : string) (hs : list (string * header_value)) : option header_value :=
  match hs with
  | [] => None
  | (k, v) :: hs' => if String.eqb k keyword then Some v else get_header keyword hs'
  end.

(** The three parts of a response the contract speaks of. *)
Definition contract_view (r : Response) : Z * option header_value * list payload :=
  (status r, get_header "Content-Type" (headers r), body r).

(** The response to a connection, taken alone. *)
Definition respond (cls : HandlerClass) (conn : Connection) : option Response :=
  read_response (snd (finish_request cls [] conn)).

(** *** Sample requests *)

Definition CRLF : string := String (Json.chr 13) (String (Json.chr 10) EmptyString).

(** A request line with no header field after it, arriving at [t]. *)
Definition request (t : nat) (line : string) : RawRequest :=
  {| arrival := t; raw_line := line +:+ CRLF; raw_headers := Headers EmptyString EmptyString |}.

(** A connection with one request on it. *)
Definition one (t : nat) (line : string) : Connection :=
  {| peer := "127.0.0.1"; rfile := [request t line] |}.

(** The text [{"status": "ok"}]. *)
Definition health_body : string :=
  "{" +:+ Json.quote +:+ "status" +:+ Json.quote +:+ ": " +:+ Json.quote +:+ "ok" +:+ Json.quote +:+ "}".

(** The header block of a 200 answer at time [t]. *)
Definition ok_head (t : nat) (content_type : string) : chunk :=
  Head [StatusLine 200 "OK"; Header "Server" version_string;
        Header "Date" (date_time_string t); Header "Content-Type" (Text content_type)].

(** The message and the header block of the 501 answer to command [c]. *)
Definition unsupported (c : string) : string := "Unsupported method (" +:+ Text.repr c +:+ ")".

Definition error_head (t : nat) (c : string) : chunk :=
  Head [StatusLine 501 (unsupported c); Header "Server" version_string;
        Header "Date" (date_time_string t); Header "Connection" (Text "close");
        Header "Content-Type" (Text "text/html;charset=utf-8");
        Header "Content-Length"
          (content_length (ErrorPage 501 (unsupported c) "Server does not support this operation"))].

(** Two runs of the server. *)
Definition history1 : list Connection :=
  [one 1 "GET / HTTP/1.1"; one 2 "POST /health HTTP/1.1"; one 3 "GET /health HTTP/1.1"].

Definition history2 : list Connection :=
  [one 50 "GET /health HTTP/1.0"].

Definition sample_document : Json.json :=
  Json.JDict [("a", Json.JList [Json.JInt 1; Json.JInt (-2); Json.JBool true]);
              ("b", Json.JDict [("c", Json.JNone)]);
              ("d", Json.JStr (String (Json.chr 10) "x"))].

(** *** Decimal numerals

    The value of the numeral [d] read from the left after the digits
    valued [acc], as [scan_digits] accumulates it. *)
Fixpoint uint_value (d : Decimal.uint) (acc : Z) : Z :=
  match d with
  | Decimal.Nil => acc
  | Decimal.D0 d' => uint_value d' (10 * acc + 0)
  | Decimal.D1 d' => uint_value d' (10 * acc + 1)
  | Decimal.D2 d' => uint_value d' (10 * acc + 2)
  | Decimal.D3 d' => uint_value d' (10 * acc + 3)
  | Decimal.D4 d' => uint_value d' (10 * acc + 4)
  | Decimal.D5 d' => uint_value d' (10 * acc + 5)
  | Decimal.D6 d' => uint_value d' (10 * acc + 6)
  | Decimal.D7 d' => uint_value d' (10 * acc + 7)
  | Decimal.D8 d' => uint_value d' (10 * acc + 8)
  | Decimal.D9 d' => uint_value d' (10 * acc + 9)
  end.

(** The characters of the numeral [d]. *)
Definition uint_chars (d : Decimal.uint) : list ascii :=
  list_ascii_of_string (NilEmpty.string_of_uint d).

(** Every character of [p] is white space for [int]. *)
Definition all_space (p : list ascii) : Prop := Forall (fun c => isspace c = true) p.

(** Every character of [s] is written by [json.dumps] as itself or as a
    two-character escape: printable ASCII, or one of backspace, tab,
    line feed, form feed, carriage return. *)
Definition no_u_escape (s : string) : bool :=
  forallb (fun c => let n := ord c in
                    ((32 <=? n) && (n <=? 126)) ||
                    (n =? 8) || (n =? 9) || (n =? 10) || (n =? 12) || (n =? 13))
          (list_ascii_of_string s).

(** * Checks on sample inputs *)

Example int_9090 : int (Str "9090") = Ok 9090.
Proof. reflexivity. Qed.

Example int_spaces_sign : int (Str " +9_090 ") = Ok 9090.
Proof. reflexivity. Qed.

Example int_abc : int (Str "abc") = Raise ValueError.
Proof. reflexivity. Qed.

Example int_empty : int (Str "") = Raise ValueError.
Proof. reflexivity. Qed.

Example int_float : int (Str "80.80") = Raise ValueError.
Proof. reflexivity. Qed.

Example int_underscores : int (Str "8__0") = Raise ValueError /\ int (Str "80_") = Raise ValueError /\ int (Str "_80") = Raise ValueError.
Proof. repeat split; reflexivity. Qed.

Example str_8080 : str 8080 = "8080" /\ str 0 = "0" /\ str (-5) = "-5".
Proof. repeat split; reflexivity. Qed.

Example main_unset :
  main env_unset = Ok ({| server_address := ("0.0.0.0", 8080) |}, ["Server running on port 8080"]).
Proof. vm_compute. reflexivity. Qed.

Example main_9090 :
  main (env_port "9090") = Ok ({| server_address := ("0.0.0.0", 9090) |}, ["Server running on port 9090"]).
Proof. vm_compute. reflexivity. Qed.

Example main_abc : main (env_port "abc") = Raise ValueError.
Proof. vm_compute. reflexivity. Qed.

Example main_70000 : main (env_port "70000") = Raise OverflowError.
Proof. vm_compute. reflexivity. Qed.

Example main_negative : main (env_port "-1") = Raise OverflowError.
Proof. vm_compute. reflexivity. Qed.

Example main_busy : main (env_busy "9090" 9090) = Raise (OSError EADDRINUSE).
Proof. vm_compute. reflexivity. Qed.

Example main_zero :
  main (env_port "0") = Ok ({| server_address := ("0.0.0.0", 49152) |}, ["Server running on port 0"]).
Proof. vm_compute. reflexivity. Qed.

Example app_site : app "__main__" env_unset = Raise (ModuleNotFoundError "pyyaml").
Proof. vm_compute. reflexivity. Qed.

Example dumps_status : Json.dumps (Json.JDict [("status", Json.JStr "ok")]) = health_body.
Proof. reflexivity. Qed.

Example loads_dumps_sample : Json.loads (Json.dumps sample_document) = Some sample_document.
Proof. vm_compute. reflexivity. Qed.

Example loads_last_key_wins :
  Json.loads (Json.dumps (Json.JDict [("k", Json.JInt 1); ("k", Json.JInt 2)]))
  = Some (Json.JDict [("k", Json.JInt 2)]).
Proof. vm_compute. reflexivity. Qed.

Example loads_rejects_trailing : Json.loads (health_body +:+ "x") = None.
Proof. vm_compute. reflexivity. Qed.

Example split_words : Text.split "  GET   /a b  " = ["GET"; "/a"; "b"].
Proof. vm_compute. reflexivity. Qed.

Example rstrip_line : Text.rstrip_crlf ("ab" +:+ CRLF +:+ CRLF) = "ab".
Proof. vm_compute. reflexivity. Qed.

Example repr_plain : Text.repr "POST" = "'POST'".
Proof. vm_compute. reflexivity. Qed.

Example repr_single_quote : Text.repr "O'BRIEN" = Json.quote +:+ "O'BRIEN" +:+ Json.quote.
Proof. vm_compute. reflexivity. Qed.

Example repr_both_quotes : Text.repr ("a'" +:+ Json.quote) = "'a\'" +:+ Json.quote +:+ "'".
Proof. vm_compute. reflexivity. Qed.

Example repr_control : Text.repr (String (Json.chr 7) "\") = "'\x07\\'".
Proof. vm_compute. reflexivity. Qed.

Example get_health_chunks :
  snd (finish_request HealthHandler.class [] (one 7 "GET /health HTTP/1.1"))
  = [Head [StatusLine 200 "OK"; Header "Server" version_string;
           Header "Date" (date_time_string 7);
           Header "Content-Type" (Text "application/json")];
     Body (Bytes health_body)].
Proof. vm_compute. reflexivity. Qed.

Example get_root_chunks :
  snd (finish_request HealthHandler.class [] (one 7 "GET / HTTP/1.0"))
  = [Head [StatusLine 200 "OK"; Header "Server" version_string;
           Header "Date" (date_time_string 7);
           Header "Content-Type" (Text "text/plain")];
     Body (Bytes "Supply Chain POC App")].
Proof. vm_compute. reflexivity. Qed.

(** A request line without a version is an HTTP/0.9 request: the body
    and nothing else. *)
Example get_health_simple_request :
  snd (finish_request HealthHandler.class [] (one 7 "GET /health"))
  = [Body (Bytes health_body)].
Proof. vm_compute. reflexivity. Qed.

Example get_double_slash :
  snd (finish_request HealthHandler.class [] (one 7 "GET //health HTTP/1.1"))
  = [ok_head 7 "application/json"; Body (Bytes health_body)].
Proof. vm_compute. reflexivity. Qed.

Example post_root_chunks :
  snd (finish_request HealthHandler.class [] (one 7 "POST / HTTP/1.1"))
  = [Head [StatusLine 501 "Unsupported method ('POST')"; Header "Server" version_string;
           Header "Date" (date_time_string 7);
           Header "Connection" (Text "close");
           Header "Content-Type" (Text "text/html;charset=utf-8");
           Header "Content-Length"
             (content_length (ErrorPage 501 "Unsupported method ('POST')"
                                "Server does not support this operation"))];
     Body (ErrorPage 501 "Unsupported method ('POST')" "Server does not support this operation")].
Proof. vm_compute. reflexivity. Qed.

Example head_has_no_body :
  snd (finish_request HealthHandler.class [] (one 7 "HEAD / HTTP/1.1"))
  = [error_head 7 "HEAD"].
Proof. vm_compute. reflexivity. Qed.

Example post_simple_request :
  snd (finish_request HealthHandler.class [] (one 7 "POST /"))
  = [Body (ErrorPage 400 "Bad HTTP/0.9 request type ('POST')"
             "Bad request syntax or unsupported method")].
Proof. vm_compute. reflexivity. Qed.

Example post_version_0_9 :
  snd (finish_request HealthHandler.class [] (one 7 "POST / HTTP/0.9"))
  = [Body (ErrorPage 501 "Unsupported method ('POST')" "Server does not support this operation")].
Proof. vm_compute. reflexivity. Qed.

Example version_2_0 :
  snd (finish_request HealthHandler.class [] (one 7 "GET / HTTP/2.0"))
  = [Body (ErrorPage 505 "Invalid HTTP version (2.0)" "Cannot fulfill request")].
Proof. vm_compute. reflexivity. Qed.

Example bad_version :
  snd (finish_request HealthHandler.class [] (one 7 "GET / HTTP/1.x"))
  = [Body (ErrorPage 400 "Bad request version ('HTTP/1.x')"
             "Bad request syntax or unsupported method")].
Proof. vm_compute. reflexivity. Qed.

Example four_words :
  read_response (snd (finish_request HealthHandler.class [] (one 7 "GET / a HTTP/1.1")))
  = Some {| status := 400; reason := "Bad request syntax ('GET / a HTTP/1.1')";
            headers := [("Server", version_string); ("Date", date_time_string 7);
                        ("Connection", Text "close");
                        ("Content-Type", Text "text/html;charset=utf-8");
                        ("Content-Length",
                         content_length
                           (ErrorPage 400 "Bad request syntax ('GET / a HTTP/1.1')"
                              "Bad request syntax or unsupported method"))];
            body := [ErrorPage 400 "Bad request syntax ('GET / a HTTP/1.1')"
                       "Bad request syntax or unsupported method"] |}.
Proof. vm_compute. reflexivity. Qed.

Example blank_line : snd (finish_request HealthHandler.class [] (one 7 "")) = [].
Proof. vm_compute. reflexivity. Qed.

Example too_many_headers :
  snd (finish_request HealthHandler.class []
         {| peer := "127.0.0.1";
            rfile := [{| arrival := 7; raw_line := "GET /health" +:+ CRLF;
                         raw_headers := TooManyHeaders |}] |})
  = [Body (ErrorPage 431 "Too many headers" "got more than 100 headers")].
Proof. vm_compute. reflexivity. Qed.

Example second_request_unread :
  snd (finish_request HealthHandler.class []
         {| peer := "127.0.0.1";
            rfile := [request 7 "GET / HTTP/1.1"; request 8 "GET /health HTTP/1.1"] |})
  = [ok_head 7 "text/plain"; Body (Bytes "Supply Chain POC App")].
Proof. vm_compute. reflexivity. Qed.

(** An HTTP/1.1 request that asks to keep the connection open is
    answered, and the connection closed all the same. *)
Example keep_alive_is_closed :
  snd (finish_request HealthHandler.class []
         {| peer := "127.0.0.1";
            rfile := [{| arrival := 7; raw_line := "GET / HTTP/1.1" +:+ CRLF;
                         raw_headers := Headers "Keep-Alive" EmptyString |};
                      request 8 "GET /health HTTP/1.1"] |})
  = [ok_head 7 "text/plain"; Body (Bytes "Supply Chain POC App")].
Proof. vm_compute. reflexivity. Qed.

(** With the inherited [log_message] the same request leaves a line on
    [sys.stderr]; with the override it leaves none. *)
Example base_class_logs :
  map log_text (fst (finish_request BaseHTTPRequestHandler.class [] (one 7 "GET /health HTTP/1.1")))
  = ["code 501, message Unsupported method ('GET')";
     Json.quote +:+ "GET /health HTTP/1.1" +:+ Json.quote +:+ " 501 -"].
Proof. vm_compute. reflexivity. Qed.

Example health_handler_silent :
  fst (finish_request HealthHandler.class [] (one 7 "GET /health HTTP/1.1")) = [].
Proof. vm_compute. reflexivity. Qed.

(** * Startup *)

(** ** [int] on text *)

Lemma read_digits_raises (sign : Z) (p : list ascii) (e : exn) :
  read_digits sign p = Raise e -> e = ValueError.
Proof.
  unfold read_digits. intros H.
  repeat case_match; congruence.
Qed.

Lemma long_from_string_raises (p : list ascii) (e : exn) :
  long_from_string p = Raise e -> e = ValueError.
Proof.
  unfold long_from_string. destruct (read_sign (skip_space p)) as [sign q].
  apply read_digits_raises.
Qed.

Lemma int_raises (x : value) (e : exn) : int x = Raise e -> e = ValueError.
Proof.
  destruct x as [s|z]; simpl; [apply long_from_string_raises | discriminate].
Qed.

Lemma skip_space_no_digit (p : list ascii) :
  Forall no_digit p -> Forall no_digit (skip_space p).
Proof.
  induction 1 as [|c p Hc Hp IH]; simpl; [constructor|].
  destruct (isspace c); [assumption | constructor; assumption].
Qed.

Lemma read_sign_no_digit (p : list ascii) :
  Forall no_digit p -> Forall no_digit (snd (read_sign p)).
Proof.
  destruct 1 as [|c p Hc Hp]; simpl; [constructor|].
  repeat case_match; simpl; auto.
Qed.

(** Without a digit the loop never counts one. *)
Lemma scan_digits_no_digit (p : list ascii) :
  Forall no_digit p ->
  forall prev digits acc rest digits' acc',
    scan_digits p prev digits acc = Some (rest, digits', acc') -> digits' = digits.
Proof.
  induction 1 as [|c p Hc Hp IH]; intros prev digits acc rest digits' acc'; simpl.
  - destruct prev; congruence.
  - rewrite Hc. destruct (is_underscore c), prev; try congruence.
    apply IH.
Qed.

Lemma read_digits_no_digit (sign : Z) (p : list ascii) :
  Forall no_digit p -> read_digits sign p = Raise ValueError.
Proof.
  intros Hp. unfold read_digits.
  destruct p as [|c q]; [reflexivity|].
  destruct (is_underscore c); [reflexivity|].
  destruct (scan_digits (c :: q) false 0 0) as [[[rest digits] acc]|] eqn:E; [|reflexivity].
  apply (scan_digits_no_digit _ Hp) in E. subst digits. reflexivity.
Qed.

Lemma long_from_string_no_digit (p : list ascii) :
  Forall no_digit p -> long_from_string p = Raise ValueError.
Proof.
  intros Hp. unfold long_from_string.
  pose proof (read_sign_no_digit _ (skip_space_no_digit _ Hp)) as Hq.
  destruct (read_sign (skip_space p)) as [sign q].
  apply read_digits_no_digit, Hq.
Qed.

Lemma has_no_digit_Forall (s : string) :
  has_no_digit s = true -> Forall no_digit (list_ascii_of_string s).
Proof.
  unfold has_no_digit. induction (list_ascii_of_string s) as [|c l IH]; simpl.
  - constructor.
  - intros H. apply andb_prop in H as [Hc Hl]. constructor; [|auto].
    unfold no_digit. destruct (isdigit c); [discriminate | reflexivity].
Qed.

Lemma int_no_digit (s : string) : has_no_digit s = true -> int (Str s) = Raise ValueError.
Proof. intros H. apply long_from_string_no_digit, has_no_digit_Forall, H. Qed.

(** ** The [__main__] block *)

Lemma port_of_unset (env : Env) : environ env !! "PORT" = None -> port_of env = Ok 8080.
Proof. unfold port_of, environ_get. intros ->. reflexivity. Qed.

Lemma port_of_set (env : Env) (s : string) :
  environ env !! "PORT" = Some s -> port_of env = int (Str s).
Proof. unfold port_of, environ_get. intros ->. reflexivity. Qed.

(** [main] once the port is known. *)
Lemma main_with_port (env : Env) (port : Z) :
  port_of env = Ok port ->
  main env = (server ← HTTPServer env ("0.0.0.0", port);
              mret (server, ["Server running on port " +:+ str port])).
Proof. unfold main. intros ->. reflexivity. Qed.

Lemma main_port_raises (env : Env) (e : exn) : port_of env = Raise e -> main env = Raise e.
Proof. unfold main. intros ->. reflexivity. Qed.

Lemma HTTPServer_free (env : Env) (host : string) (port : Z) :
  0 < port <= 65535 -> bind_errno env port = None ->
  HTTPServer env (host, port) = Ok {| server_address := (host, port) |}.
Proof.
  intros Hr Hf. unfold HTTPServer, socket_bind.
  replace ((port <? 0) || (65535 <? port)) with false by lia.
  rewrite Hf. replace (port =? 0) with false by lia. reflexivity.
Qed.

(** What [HTTPServer] raises, and when. *)
Lemma HTTPServer_raises (env : Env) (host : string) (port : Z) (e : exn) :
  HTTPServer env (host, port) = Raise e <->
  ((port < 0 \/ 65535 < port) /\ e = OverflowError) \/
  (0 <= port <= 65535 /\ exists no, bind_errno env port = Some no /\ e = OSError no).
Proof.
  unfold HTTPServer, socket_bind.
  destruct ((port <? 0) || (65535 <? port)) eqn:Hrange.
  - simpl. split.
    + intros [= <-]. left. split; [lia | reflexivity].
    + intros [[_ ->] | [Hin _]]; [reflexivity | lia].
  - destruct (bind_errno env port) as [no|] eqn:Hno; simpl; split.
    + intros [= <-]. right. split; [lia|]. exists no. split; reflexivity.
    + intros [[Hout _] | [_ (no' & [= ->] & ->)]]; [lia | reflexivity].
    + discriminate.
    + intros [[Hout _] | [_ (no' & [=] & _)]]. lia.
Qed.

(** C3 (as amended): with [PORT] unset line 32 computes 8080, the server
    is created for port 8080 and, when the system lets it bind, listens
    there; with [PORT] set to text [int] refuses, line 32 raises
    [ValueError], nothing is bound and the process ends with status 1;
    ASCII text without any digit is such text. *)
Theorem port_unset_is_8080_no_digit_is_ValueError (env : Env) :
  (environ env !! "PORT" = None ->
     port_of env = Ok 8080 /\
     main env = (server ← HTTPServer env ("0.0.0.0", 8080);
                 mret (server, ["Server running on port 8080"])) /\
     (bind_errno env 8080 = None ->
        main env = Ok ({| server_address := ("0.0.0.0", 8080) |},
                       ["Server running on port 8080"]))) /\
  (forall s, environ env !! "PORT" = Some s ->
     int (Str s) = Raise ValueError ->
     port_of env = Raise ValueError /\
     main env = Raise ValueError /\
     exit_status (main env) = Some 1) /\
  (forall s, environ env !! "PORT" = Some s ->
     isascii s = true -> has_no_digit s = true ->
     main env = Raise ValueError).
Proof.
  split.
  - intros Hunset. pose proof (port_of_unset env Hunset) as Hp.
    split; [exact Hp|]. split; [exact (main_with_port env 8080 Hp)|].
    intros Hfree. rewrite (main_with_port env 8080 Hp).
    rewrite HTTPServer_free by (lia || assumption). reflexivity.
  - assert (Hrefused : forall s, environ env !! "PORT" = Some s ->
              int (Str s) = Raise ValueError -> main env = Raise ValueError).
    { intros s Hset Hint. apply main_port_raises.
      rewrite (port_of_set env s Hset). exact Hint. }
    split.
    + intros s Hset Hint. rewrite (Hrefused s Hset Hint).
      rewrite (port_of_set env s Hset). repeat split; assumption || reflexivity.
    + intros s Hset _ Hnd. apply (Hrefused s Hset), int_no_digit, Hnd.
Qed.

Lemma port_unset_is_8080_no_digit_is_ValueError_witness :
  main env_unset = Ok ({| server_address := ("0.0.0.0", 8080) |}, ["Server running on port 8080"])
  /\ main (env_port "abc") = Raise ValueError.
Proof.
  split.
  - apply (proj1 (port_unset_is_8080_no_digit_is_ValueError env_unset)); reflexivity.
  - apply (proj2 (proj2 (port_unset_is_8080_no_digit_is_ValueError (env_port "abc"))) "abc");
      reflexivity.
Defined.

(** C3 as the specification states it fails: [PORT=abc] is not numeric,
    port 8080 is free, and yet no server is created. *)
Lemma non_numeric_port_does_not_fall_back :
  environ (env_port "abc") !! "PORT" = Some "abc" /\
  has_no_digit "abc" = true /\
  bind_errno (env_port "abc") 8080 = None /\
  port_of (env_port "abc") <> Ok 8080 /\
  ~ (exists server out, main (env_port "abc") = Ok (server, out)).
Proof.
  repeat split; try reflexivity.
  - vm_compute. discriminate.
  - intros (server & out & H). vm_compute in H. discriminate.
Qed.

(** C6: with [PORT=9090] line 32 computes 9090, the server is created for
    port 9090, listens there when the system lets it bind, and whenever
    the block gets as far as serving, the port is 9090 and not 8080. *)
Theorem port_9090_is_used (env : Env) :
  environ env !! "PORT" = Some "9090" ->
  port_of env = Ok 9090 /\
  main env = (server ← HTTPServer env ("0.0.0.0", 9090);
              mret (server, ["Server running on port 9090"])) /\
  (bind_errno env 9090 = None ->
     main env = Ok ({| server_address := ("0.0.0.0", 9090) |},
                    ["Server running on port 9090"])) /\
  (forall server out, main env = Ok (server, out) ->
     server_address server = ("0.0.0.0", 9090) /\ snd (server_address server) <> 8080).
Proof.
  intros Hset.
  assert (Hp : port_of env = Ok 9090) by (rewrite (port_of_set env _ Hset); reflexivity).
  pose proof (main_with_port env 9090 Hp) as Hm.
  split; [exact Hp|]. split; [exact Hm|]. split.
  - intros Hfree. rewrite Hm, HTTPServer_free by (lia || assumption). reflexivity.
  - intros server out. rewrite Hm. unfold HTTPServer, socket_bind. simpl.
    destruct (bind_errno env 9090); simpl; [discriminate|].
    intros [= <- _]. simpl. split; [reflexivity | lia].
Qed.

Lemma port_9090_is_used_witness :
  main (env_port "9090")
  = Ok ({| server_address := ("0.0.0.0", 9090) |}, ["Server running on port 9090"]).
Proof.
  apply (proj1 (proj2 (proj2 (port_9090_is_used (env_port "9090") eq_refl)))).
  reflexivity.
Defined.




(** ** The imports *)

Lemma import_not_found (env : Env) (name : string) :
  name ∉ stdlib -> name ∉ site_packages env ->
  import env name = Raise (ModuleNotFoundError name).
Proof.
  intros Hs Hp. unfold import.
  destruct (decide (name ∈ stdlib)); [contradiction|].
  destruct (decide (name ∈ site_packages env)); [contradiction | reflexivity].
Qed.

Lemma pyyaml_not_stdlib : "pyyaml" ∉ stdlib.
Proof.
  unfold stdlib. rewrite !elem_of_union, !elem_of_singleton.
  intros [[H|H]|H]; discriminate H.
Qed.

Lemma imports_need_pyyaml (env : Env) (name : string) :
  "pyyaml" ∉ site_packages env ->
  forall r, app name env <> Ok r.
Proof.
  intros Hno r. unfold app, imports.
  rewrite (import_not_found env "pyyaml" pyyaml_not_stdlib Hno).
  destruct (import env "http.server"); [|discriminate].
  destruct (import env "json"); [|discriminate].
  destruct (import env "os"); [|discriminate].
  destruct (import env "flask"); [|discriminate].
  destruct (import env "requests"); [|discriminate].
  discriminate.
Qed.

(** C4: with the four distributions installed and nothing in the way of
    port 8080, the module run as a script stops at line 10 with
    [ModuleNotFoundError], exit status 1; with lines 8-11 deleted the same
    run reaches [serve_forever] on port 8080. *)
Theorem import_pyyaml_stops_startup :
  site_packages env_unset = installed ["flask"; "requests"; "pyyaml"; "cryptography"] /\
  app "__main__" env_unset = Raise (ModuleNotFoundError "pyyaml") /\
  exit_status (app "__main__" env_unset) = Some 1 /\
  app_without_decorative_imports "__main__" env_unset
  = Ok (Some ({| server_address := ("0.0.0.0", 8080) |}, ["Server running on port 8080"])).
Proof. repeat split; vm_compute; reflexivity. Qed.

(** * Requests *)

(** ** The inherited methods under [HealthHandler] *)

Ltac fields :=
  cbn [client_address raw_requestline rfile_headers now requestline command path
       request_version close_connection _headers_buffer wfile stderr
       set_raw set_raw_requestline set_requestline set_command set_path
       set_request_version set_close_connection set_headers_buffer wfile_write
       stderr_write] in *.

(** Normalise the fields and decide the tests on the version with [E]. *)
Ltac settle E :=
  repeat (progress (unfold HealthHandler.log_message; fields; rewrite ?E)).

Lemma log_message_pass (format : string) (args : list string) (self : Handler) :
  HealthHandler.log_message format args self = self.
Proof. reflexivity. Qed.

Lemma protocol_is_1_0 : Text.ge protocol_version "HTTP/1.1" = false.
Proof. reflexivity. Qed.

(** [send_header] for a field other than Connection. *)
Lemma send_header_plain (k : string) (v : header_value) (self : Handler) :
  String.eqb (Text.lower k) "connection" = false ->
  send_header k v self
  = if String.eqb (request_version self) "HTTP/0.9" then self
    else set_headers_buffer (_headers_buffer self ++ [Header k v]) self.
Proof. intros H. unfold send_header. rewrite H. reflexivity. Qed.

Lemma send_header_close (self : Handler) :
  send_header "Connection" (Text "close") self
  = set_close_connection true
      (if String.eqb (request_version self) "HTTP/0.9" then self
       else set_headers_buffer (_headers_buffer self ++ [Header "Connection" (Text "close")])
              self).
Proof. reflexivity. Qed.

(** What [send_response] leaves, by the version of the request. *)
Lemma send_response_silent (code : Z) (message : string) (self : Handler) :
  send_response HealthHandler.log_message code (Some message) self
  = if String.eqb (request_version self) "HTTP/0.9" then self
    else set_headers_buffer
           (_headers_buffer self ++
            [StatusLine code message; Header "Server" version_string;
             Header "Date" (date_time_string (now self))]) self.
Proof.
  unfold send_response, log_request, send_response_only. cbv zeta.
  rewrite log_message_pass, !send_header_plain by reflexivity.
  destruct (String.eqb (request_version self) "HTTP/0.9") eqn:E; settle E;
    [reflexivity|]. rewrite <- !app_assoc. reflexivity.
Qed.

Lemma send_response_200 (self : Handler) :
  send_response HealthHandler.log_message 200 None self
  = send_response HealthHandler.log_message 200 (Some "OK") self.
Proof. reflexivity. Qed.

(** What [send_error] leaves for a code with an error page. *)
Lemma send_error_silent (code : Z) (message explain : option string) (self : Handler) :
  (200 <=? code) && negb ((code =? 204) || (code =? 205) || (code =? 304)) = true ->
  let msg := match message with
             | Some m => m
             | None => match responses code with Some p => fst p | None => "???" end
             end in
  let exp := match explain with
             | Some x => x
             | None => match responses code with Some p => snd p | None => "???" end
             end in
  let page := ErrorPage code msg exp in
  send_error HealthHandler.log_message code message explain self
  = set_close_connection true
      (if String.eqb (request_version self) "HTTP/0.9" then
         if String.eqb (command self) "HEAD" then self else wfile_write (Body page) self
       else
         let head :=
           Head (_headers_buffer self ++
                 [StatusLine code msg; Header "Server" version_string;
                  Header "Date" (date_time_string (now self));
                  Header "Connection" (Text "close");
                  Header "Content-Type" (Text "text/html;charset=utf-8");
                  Header "Content-Length" (content_length page)]) in
         if String.eqb (command self) "HEAD" then set_headers_buffer [] (wfile_write head self)
         else wfile_write (Body page) (set_headers_buffer [] (wfile_write head self))).
Proof.
  intros Hcode msg exp page. unfold send_error, log_error.
  assert (Hm : (let '(shortmsg, longmsg) :=
                  match responses code with Some p => p | None => ("???", "???") end in
                (match message with Some m => m | None => shortmsg end,
                 match explain with Some x => x | None => longmsg end)) = (msg, exp)).
  { subst msg exp. destruct (responses code) as [[s l]|]; reflexivity. }
  destruct (match responses code with Some p => p | None => ("???", "???") end) as [s l].
  injection Hm as Hm He. rewrite Hm, He, Hcode. fold page.
  cbv zeta. rewrite log_message_pass, send_response_silent, send_header_close.
  rewrite !send_header_plain by reflexivity. unfold end_headers.
  destruct (String.eqb (request_version self) "HTTP/0.9") eqn:E; settle E.
  - destruct (String.eqb (command self) "HEAD"); reflexivity.
  - destruct (String.eqb (command self) "HEAD"); rewrite <- !app_assoc; reflexivity.
Qed.

Lemma send_error_stderr (code : Z) (message explain : option string) (self : Handler) :
  (200 <=? code) && negb ((code =? 204) || (code =? 205) || (code =? 304)) = true ->
  stderr (send_error HealthHandler.log_message code message explain self) = stderr self.
Proof.
  intros H. rewrite send_error_silent by exact H. cbv zeta.
  destruct (String.eqb (request_version self) "HTTP/0.9"),
    (String.eqb (command self) "HEAD"); reflexivity.
Qed.

Lemma send_error_closes (code : Z) (message explain : option string) (self : Handler) :
  (200 <=? code) && negb ((code =? 204) || (code =? 205) || (code =? 304)) = true ->
  close_connection (send_error HealthHandler.log_message code message explain self) = true.
Proof. intros H. rewrite send_error_silent by exact H. reflexivity. Qed.

(** ** [parse_request] under [HealthHandler] *)

Lemma untouched_refl (self : Handler) : untouched self self.
Proof. repeat split. Qed.

Lemma untouched_trans (a b c : Handler) : untouched a b -> untouched b c -> untouched a c.
Proof.
  intros (H1 & H2 & H3 & H4 & H5) (K1 & K2 & K3 & K4 & K5).
  repeat split; etransitivity; eassumption.
Qed.

(** A version word that is accepted changes [request_version] alone. *)
Lemma parse_request_version_inr (words : list string) (self self' : Handler) :
  parse_request_version HealthHandler.log_message words self = inr self' ->
  self' = set_request_version (request_version self') self.
Proof.
  unfold parse_request_version.
  destruct (3 <=? length words)%nat.
  - destruct (parse_version (List.last words EmptyString)) as [[[base major] minor]|];
      [|discriminate].
    rewrite protocol_is_1_0, andb_false_r.
    destruct (pair_ge (major, minor) (2, 0)); [discriminate|].
    intros [= <-]. destruct self; reflexivity.
  - intros [= <-]. destruct self; reflexivity.
Qed.

Lemma parse_request_version_inl (words : list string) (self self' : Handler) :
  parse_request_version HealthHandler.log_message words self = inl self' ->
  stderr self' = stderr self /\ close_connection self' = true.
Proof.
  unfold parse_request_version.
  destruct (3 <=? length words)%nat; [|discriminate].
  destruct (parse_version (List.last words EmptyString)) as [[[base major] minor]|].
  - rewrite protocol_is_1_0, andb_false_r.
    destruct (pair_ge (major, minor) (2, 0)); [|discriminate].
    intros [= <-]. rewrite send_error_stderr, send_error_closes by reflexivity.
    split; reflexivity.
  - intros [= <-]. rewrite send_error_stderr, send_error_closes by reflexivity.
    split; reflexivity.
Qed.

Lemma parse_request_headers_spec (self self' : Handler) (ok : bool) :
  parse_request_headers HealthHandler.log_message self = (self', ok) ->
  stderr self' = stderr self /\
  (close_connection self = true -> close_connection self' = true) /\
  (ok = true -> self' = set_close_connection (close_connection self') self).
Proof.
  unfold parse_request_headers.
  destruct (rfile_headers self) as [conntype expect| |].
  - rewrite protocol_is_1_0, !andb_false_r. cbn [andb].
    destruct (String.eqb (Text.lower conntype) "close"); intros [= <- <-];
      (split; [reflexivity|]); (split; [intros H; try exact H; reflexivity|]);
      intros _; destruct self; reflexivity.
  - intros [= <- <-]. rewrite send_error_stderr, send_error_closes by reflexivity.
    split; [reflexivity|]. split; [reflexivity | discriminate].
  - intros [= <- <-]. rewrite send_error_stderr, send_error_closes by reflexivity.
    split; [reflexivity|]. split; [reflexivity | discriminate].
Qed.

(** The target as [parse_request] stores it in [self.path]. *)
Lemma parse_request_spec (self self' : Handler) (ok : bool) :
  parse_request HealthHandler.log_message self = (self', ok) ->
  stderr self' = stderr self /\
  close_connection self' = true /\
  (ok = true ->
     untouched self' self /\
     requestline self' = Text.rstrip_crlf (raw_requestline self) /\
     exists word0 word1 rest,
       Text.split (requestline self') = word0 :: word1 :: rest /\
       command self' = word0 /\
       path self' = stored_path word1).
Proof.
  unfold parse_request. cbv zeta. fields.
  set (line := Text.rstrip_crlf (raw_requestline self)).
  destruct (Text.split line) as [|word0 words] eqn:Hsplit.
  { intros [= <- <-]. split; [reflexivity|]. split; [reflexivity | discriminate]. }
  set (self1 := set_requestline line _).
  destruct (parse_request_version HealthHandler.log_message (word0 :: words) self1)
    as [bad|self2] eqn:Hv.
  { apply parse_request_version_inl in Hv as [Hs Hc]. intros [= <- <-].
    split; [exact Hs|]. split; [exact Hc | discriminate]. }
  apply parse_request_version_inr in Hv. set (v := request_version self2) in Hv.
  clearbody v. subst self2.
  destruct words as [|word1 [|word2 [|word3 words]]].
  - intros [= <- <-]. rewrite send_error_stderr, send_error_closes by reflexivity.
    split; [reflexivity|]. split; [reflexivity | discriminate].
  - destruct (String.eqb word0 "GET") eqn:Hget; cbn [negb].
    + match goal with |- parse_request_headers _ ?s = _ -> _ => set (self3 := s) end.
      intros Hh. apply parse_request_headers_spec in Hh as (Hs & Hc & Hok).
      assert (H3 : self3 = set_path (stored_path word1)
                             (set_command word0 (set_close_connection true
                                (set_request_version v self1)))).
      { subst self3. unfold stored_path. fields.
        destruct (String.prefix "//" word1); reflexivity. }
      clearbody self3. subst self3.
      split; [rewrite Hs; reflexivity|]. split; [apply Hc; reflexivity|].
      intros ->. rewrite (Hok eq_refl). subst self1. fields.
      split; [repeat split|]. split; [reflexivity|].
      rewrite Hsplit. eexists _, _, _. repeat split.
    + intros [= <- <-]. rewrite send_error_stderr, send_error_closes by reflexivity.
      split; [reflexivity|]. split; [reflexivity | discriminate].
  - match goal with |- parse_request_headers _ ?s = _ -> _ => set (self3 := s) end.
    intros Hh. apply parse_request_headers_spec in Hh as (Hs & Hc & Hok).
    assert (H3 : self3 = set_path (stored_path word1)
                           (set_command word0 (set_request_version v self1))).
    { subst self3. unfold stored_path. fields.
      destruct (String.prefix "//" word1); reflexivity. }
    clearbody self3. subst self3.
    split; [rewrite Hs; reflexivity|]. split; [apply Hc; reflexivity|].
    intros ->. rewrite (Hok eq_refl). subst self1. fields.
    split; [repeat split|]. split; [reflexivity|].
    rewrite Hsplit. eexists _, _, _. repeat split.
  - intros [= <- <-]. rewrite send_error_stderr, send_error_closes by reflexivity.
    split; [reflexivity|]. split; [reflexivity | discriminate].
Qed.

(** ** One request *)

(** [hasattr(self, 'do_' + command)] holds for GET alone. *)
Lemma getattr_do (c : string) :
  HealthHandler.getattr ("do_" +:+ c)
  = if String.eqb c "GET" then Some HealthHandler.do_GET else None.
Proof. reflexivity. Qed.

(** What [do_GET] does, by the path and the version of the request. *)
Lemma do_GET_spec (self : Handler) :
  let '(content_type, data) :=
    if String.eqb (path self) "/health" then ("application/json", health_body)
    else ("text/plain", "Supply Chain POC App") in
  HealthHandler.do_GET self
  = wfile_write (Body (Bytes data))
      (if String.eqb (request_version self) "HTTP/0.9" then self
       else set_headers_buffer []
              (wfile_write
                 (Head (_headers_buffer self ++
                        [StatusLine 200 "OK"; Header "Server" version_string;
                         Header "Date" (date_time_string (now self));
                         Header "Content-Type" (Text content_type)])) self)).
Proof.
  unfold HealthHandler.do_GET.
  destruct (String.eqb (path self) "/health");
    rewrite send_response_200, send_response_silent, send_header_plain by reflexivity;
    unfold end_headers;
    destruct (String.eqb (request_version self) "HTTP/0.9") eqn:E; settle E;
    rewrite <- ?app_assoc; reflexivity.
Qed.

Lemma do_GET_stderr (self : Handler) : stderr (HealthHandler.do_GET self) = stderr self.
Proof.
  pose proof (do_GET_spec self) as H.
  destruct (String.eqb (path self) "/health"); rewrite H;
    destruct (String.eqb (request_version self) "HTTP/0.9"); reflexivity.
Qed.

Lemma do_GET_close_connection (self : Handler) :
  close_connection (HealthHandler.do_GET self) = close_connection self.
Proof.
  pose proof (do_GET_spec self) as H.
  destruct (String.eqb (path self) "/health"); rewrite H;
    destruct (String.eqb (request_version self) "HTTP/0.9"); reflexivity.
Qed.

Lemma handle_one_request_stderr (self : Handler) :
  stderr (handle_one_request HealthHandler.log_message HealthHandler.getattr self)
  = stderr self.
Proof.
  unfold handle_one_request.
  destruct (65536 <? Z.of_nat (String.length (raw_requestline self)));
    [rewrite send_error_stderr by reflexivity; reflexivity|].
  destruct (String.eqb (raw_requestline self) EmptyString); [reflexivity|].
  destruct (parse_request HealthHandler.log_message self) as [self' ok] eqn:Hp.
  apply parse_request_spec in Hp as (Hs & _ & _).
  destruct ok; cbn [negb]; [|exact Hs].
  rewrite getattr_do. destruct (String.eqb (command self') "GET").
  - rewrite do_GET_stderr. exact Hs.
  - rewrite send_error_stderr by reflexivity. exact Hs.
Qed.

(** Whatever the request, the connection is to be closed after it. *)
Lemma handle_one_request_closes (self : Handler) :
  close_connection (handle_one_request HealthHandler.log_message HealthHandler.getattr self)
  = true.
Proof.
  unfold handle_one_request.
  destruct (65536 <? Z.of_nat (String.length (raw_requestline self)));
    [apply send_error_closes; reflexivity|].
  destruct (String.eqb (raw_requestline self) EmptyString); [reflexivity|].
  destruct (parse_request HealthHandler.log_message self) as [self' ok] eqn:Hp.
  apply parse_request_spec in Hp as (_ & Hc & _).
  destruct ok; cbn [negb]; [|exact Hc].
  rewrite getattr_do. destruct (String.eqb (command self') "GET").
  - rewrite do_GET_close_connection. exact Hc.
  - apply send_error_closes. reflexivity.
Qed.

Lemma handle_requests_first (raw : RawRequest) (more : list RawRequest) (self : Handler) :
  handle_requests HealthHandler.log_message HealthHandler.getattr (raw :: more) self
  = handle_one_request HealthHandler.log_message HealthHandler.getattr (set_raw raw self).
Proof. cbn [handle_requests]. rewrite handle_one_request_closes. reflexivity. Qed.

Lemma finish_request_first (err : list log_line) (who : string)
    (raw : RawRequest) (more : list RawRequest) :
  finish_request HealthHandler.class err {| peer := who; rfile := raw :: more |}
  = let self := handle_one_request HealthHandler.log_message HealthHandler.getattr
                  (set_raw raw (new_handler who err)) in
    (stderr self, wfile self).
Proof.
  unfold finish_request, handle. cbn [peer rfile cls_log_message cls_getattr HealthHandler.class].
  rewrite handle_requests_first. reflexivity.
Qed.

Lemma finish_request_stderr (err : list log_line) (conn : Connection) :
  fst (finish_request HealthHandler.class err conn) = err.
Proof.
  destruct conn as [who [|raw more]].
  - reflexivity.
  - rewrite finish_request_first. cbn [fst]. apply handle_one_request_stderr.
Qed.

Lemma serve_forever_outputs (err : list log_line) (incoming : list Connection) :
  serve_forever HealthHandler.class err incoming
  = (err, (fun conn => snd (finish_request HealthHandler.class err conn)) <$> incoming).
Proof.
  induction incoming as [|conn rest IH]; [reflexivity|].
  cbn [serve_forever]. rewrite fmap_cons.
  pose proof (finish_request_stderr err conn) as Hs.
  destruct (finish_request HealthHandler.class err conn) as [err' out].
  cbn [fst] in Hs. subst err'. rewrite IH. reflexivity.
Qed.

(** When a request is accepted, [handle_one_request] goes on to the
    method lookup with the handler [parse_request] left, which has
    written nothing yet. *)
Lemma accepted_spec (who : string) (err : list log_line) (raw : RawRequest) (self : Handler) :
  accepted who err raw = Some self ->
  handle_one_request HealthHandler.log_message HealthHandler.getattr
    (set_raw raw (new_handler who err))
  = match HealthHandler.getattr ("do_" +:+ command self) with
    | None =>
        send_error HealthHandler.log_message 501
          (Some ("Unsupported method (" +:+ Text.repr (command self) +:+ ")")) None self
    | Some method => method self
    end
  /\ wfile self = [] /\ _headers_buffer self = [] /\ stderr self = err /\
     now self = arrival raw /\
     exists word0 word1 rest,
       Text.split (Text.rstrip_crlf (raw_line raw)) = word0 :: word1 :: rest /\
       command self = word0 /\ path self = stored_path word1.
Proof.
  unfold accepted, handle_one_request.
  cbn [raw_requestline set_raw].
  destruct (65536 <? Z.of_nat (String.length (raw_line raw))); [discriminate|].
  destruct (String.eqb (raw_line raw) EmptyString); [discriminate|]. cbn [orb].
  destruct (parse_request HealthHandler.log_message (set_raw raw (new_handler who err)))
    as [self' ok] eqn:Hp.
  destruct ok; [|discriminate]. intros [= <-]. cbn [negb].
  apply parse_request_spec in Hp as (_ & _ & Hok).
  destruct (Hok eq_refl) as ((Hw & Hb & Hs & Hn & _) & Hline & word0 & word1 & rest & Hsplit & Hc & Hpath).
  split; [reflexivity|]. repeat (split; [assumption|]).
  rewrite Hline in Hsplit. exists word0, word1, rest. repeat split; assumption.
Qed.

(** The answer to an accepted GET request. *)
Lemma finish_request_get (err : list log_line) (who : string)
    (raw : RawRequest) (more : list RawRequest) (self : Handler) :
  accepted who err raw = Some self -> command self = "GET" ->
  finish_request HealthHandler.class err {| peer := who; rfile := raw :: more |}
  = (err,
     (if String.eqb (request_version self) "HTTP/0.9" then []
      else [ok_head (arrival raw)
              (if String.eqb (path self) "/health" then "application/json" else "text/plain")])
     ++ [Body (Bytes (if String.eqb (path self) "/health" then health_body
                      else "Supply Chain POC App"))]).
Proof.
  intros Ha Hc. rewrite finish_request_first.
  apply accepted_spec in Ha as (-> & Hw & Hb & Hs & Hn & _).
  rewrite getattr_do, Hc. cbn [String.eqb Ascii.eqb Bool.eqb andb].
  change ("GET" =? "GET")%string with true. cbv iota zeta.
  pose proof (do_GET_spec self) as H.
  destruct (String.eqb (path self) "/health"); rewrite H;
    destruct (String.eqb (request_version self) "HTTP/0.9"); fields;
    rewrite Hw, ?Hb, Hs, ?Hn; reflexivity.
Qed.

(** The answer to an accepted request with another method. *)
Lemma finish_request_not_get (err : list log_line) (who : string)
    (raw : RawRequest) (more : list RawRequest) (self : Handler) :
  accepted who err raw = Some self -> command self <> "GET" ->
  finish_request HealthHandler.class err {| peer := who; rfile := raw :: more |}
  = (err,
     (if String.eqb (request_version self) "HTTP/0.9" then []
      else [error_head (arrival raw) (command self)])
     ++ (if String.eqb (command self) "HEAD" then []
         else [Body (ErrorPage 501 (unsupported (command self))
                       "Server does not support this operation")])).
Proof.
  intros Ha Hc. rewrite finish_request_first.
  apply accepted_spec in Ha as (-> & Hw & Hb & Hs & Hn & _).
  apply String.eqb_neq in Hc. rewrite getattr_do, Hc.
  rewrite send_error_silent by reflexivity. cbv zeta.
  destruct (String.eqb (request_version self) "HTTP/0.9");
    destruct (String.eqb (command self) "HEAD"); fields;
    rewrite Hw, ?Hb, Hs, ?Hn; reflexivity.
Qed.

(** C1 as the specification states it fails: the request line
    [GET /health] names no version, the request is an HTTP/0.9 one, and
    the answer has no status line and no header. *)
Lemma health_without_version_has_no_status :
  ~ (forall who err raw more self,
       accepted who err raw = Some self -> command self = "GET" -> path self = "/health" ->
       exists resp,
         read_response
           (snd (finish_request HealthHandler.class err {| peer := who; rfile := raw :: more |}))
         = Some resp /\
         status resp = 200 /\
         get_header "Content-Type" (headers resp) = Some (Text "application/json")).
Proof.
  intros H.
  edestruct (H "127.0.0.1" [] (request 0 "GET /health") []) as (resp & Hr & _);
    [vm_compute; reflexivity | reflexivity | reflexivity |].
  vm_compute in Hr. discriminate Hr.
Qed.

(** C1 (as amended): a GET request for [/health] whose request line
    names a version other than HTTP/0.9 is answered 200 with
    [Content-Type: application/json] and the text [{"status": "ok"}],
    which [json.loads] reads as the object with the one member
    [status = "ok"]; an HTTP/0.9 request for [/health] gets that text
    alone. *)
Theorem get_health_is_200_json (who : string) (err : list log_line)
    (raw : RawRequest) (more : list RawRequest) (self : Handler) :
  accepted who err raw = Some self -> command self = "GET" -> path self = "/health" ->
  let out := snd (finish_request HealthHandler.class err
                    {| peer := who; rfile := raw :: more |}) in
  (request_version self <> "HTTP/0.9" ->
     exists resp,
       read_response out = Some resp /\
       status resp = 200 /\
       get_header "Content-Type" (headers resp) = Some (Text "application/json") /\
       body resp = [Bytes health_body]) /\
  (request_version self = "HTTP/0.9" -> out = [Body (Bytes health_body)]) /\
  Json.loads health_body = Some (Json.JDict [("status", Json.JStr "ok")]).
Proof.
  intros Ha Hc Hp out. subst out. rewrite (finish_request_get _ _ _ _ _ Ha Hc), Hp.
  cbn [snd]. change ("/health" =? "/health")%string with true. cbv iota.
  split; [|split; [|reflexivity]].
  - intros Hv. apply String.eqb_neq in Hv. rewrite Hv.
    eexists. split; [reflexivity|]. repeat split.
  - intros Hv. rewrite Hv. reflexivity.
Qed.

Lemma get_health_is_200_json_witness :
  exists resp,
    read_response (snd (finish_request HealthHandler.class [] (one 0 "GET /health HTTP/1.1")))
    = Some resp /\
    status resp = 200 /\
    get_header "Content-Type" (headers resp) = Some (Text "application/json") /\
    body resp = [Bytes health_body].
Proof.
  pose proof (get_health_is_200_json "127.0.0.1" [] (request 0 "GET /health HTTP/1.1") [])
    as T.
  edestruct T as (T1 & _); [vm_compute; reflexivity | reflexivity | reflexivity |].
  apply T1. discriminate.
Defined.

(** C2 as the specification states it fails: the HTTP/0.9 request
    [GET /] gets the text with no status line and no header. *)
Lemma plain_without_version_has_no_status :
  ~ (forall who err raw more self,
       accepted who err raw = Some self -> command self = "GET" -> path self <> "/health" ->
       exists resp,
         read_response
           (snd (finish_request HealthHandler.class err {| peer := who; rfile := raw :: more |}))
         = Some resp /\
         status resp = 200 /\
         get_header "Content-Type" (headers resp) = Some (Text "text/plain")).
Proof.
  intros H.
  edestruct (H "127.0.0.1" [] (request 0 "GET /") []) as (resp & Hr & _);
    [vm_compute; reflexivity | reflexivity | discriminate |].
  vm_compute in Hr. discriminate Hr.
Qed.

(** C2 (as amended): a GET request for any other path whose request line
    names a version other than HTTP/0.9 is answered 200 with
    [Content-Type: text/plain] and the text [Supply Chain POC App]; an
    HTTP/0.9 request for such a path gets that text alone. *)
Theorem get_other_is_200_plain (who : string) (err : list log_line)
    (raw : RawRequest) (more : list RawRequest) (self : Handler) :
  accepted who err raw = Some self -> command self = "GET" -> path self <> "/health" ->
  let out := snd (finish_request HealthHandler.class err
                    {| peer := who; rfile := raw :: more |}) in
  (request_version self <> "HTTP/0.9" ->
     exists resp,
       read_response out = Some resp /\
       status resp = 200 /\
       get_header "Content-Type" (headers resp) = Some (Text "text/plain") /\
       body resp = [Bytes "Supply Chain POC App"]) /\
  (request_version self = "HTTP/0.9" -> out = [Body (Bytes "Supply Chain POC App")]).
Proof.
  intros Ha Hc Hp out. subst out. rewrite (finish_request_get _ _ _ _ _ Ha Hc).
  apply String.eqb_neq in Hp. rewrite Hp. cbn [snd]. split.
  - intros Hv. apply String.eqb_neq in Hv. rewrite Hv.
    eexists. split; [reflexivity|]. repeat split.
  - intros Hv. rewrite Hv. reflexivity.
Qed.

Lemma get_other_is_200_plain_witness :
  (exists resp,
     read_response (snd (finish_request HealthHandler.class [] (one 0 "GET / HTTP/1.1")))
     = Some resp /\
     status resp = 200 /\
     get_header "Content-Type" (headers resp) = Some (Text "text/plain") /\
     body resp = [Bytes "Supply Chain POC App"]) /\
  snd (finish_request HealthHandler.class [] (one 0 "GET /bar/baz"))
  = [Body (Bytes "Supply Chain POC App")].
Proof.
  split.
  - pose proof (get_other_is_200_plain "127.0.0.1" [] (request 0 "GET / HTTP/1.1") []) as T.
    edestruct T as (T1 & _); [vm_compute; reflexivity | reflexivity | discriminate |].
    apply T1. discriminate.
  - pose proof (get_other_is_200_plain "127.0.0.1" [] (request 0 "GET /bar/baz") []) as T.
    edestruct T as (_ & T2); [vm_compute; reflexivity | reflexivity | discriminate |].
    apply T2. reflexivity.
Defined.

(** What [parse_request] stores for a target equals [/health] only for
    [/health] itself and for [health] after two slashes or more. *)
Lemma stored_path_health (target : string) :
  stored_path target = "/health" <->
  target = "/health" \/ (String.prefix "//" target = true /\ Text.lstrip "/" target = "health").
Proof.
  unfold stored_path. destruct (String.prefix "//" target) eqn:E; split.
  - intros [= H]. right. split; [reflexivity | exact H].
  - intros [-> | [_ ->]]; [discriminate E | reflexivity].
  - intros ->. left. reflexivity.
  - intros [-> | [[=] _]]. reflexivity.
Qed.

(** C10 as the specification states it fails: the target [//health] is
    not [/health], and the request gets the JSON answer. *)
Lemma double_slash_health_gets_json :
  ~ (forall who err raw more self target,
       accepted who err raw = Some self -> command self = "GET" ->
       request_target raw = Some target ->
       contract_view <$>
         read_response
           (snd (finish_request HealthHandler.class err {| peer := who; rfile := raw :: more |}))
       = Some (200, Some (Text "application/json"), [Bytes health_body]) ->
       target = "/health").
Proof.
  intros H.
  assert (Ht : "//health" = "/health"); [|discriminate Ht].
  eapply (H "127.0.0.1" [] (request 0 "GET //health HTTP/1.1") []);
    [vm_compute; reflexivity | reflexivity | vm_compute; reflexivity | vm_compute; reflexivity].
Qed.

(** C10 (as amended): the test is on [self.path], which is the request
    target with a run of slashes at its start, if longer than one, cut to
    one.  The health text is sent exactly when [self.path] equals
    [/health], character for character, and for a request naming a
    version other than HTTP/0.9 so is the JSON answer; a query string, a
    trailing slash or another letter case gets the plain-text answer. *)
Theorem health_branch_needs_exact_path (who : string) (err : list log_line)
    (raw : RawRequest) (more : list RawRequest) (self : Handler) :
  accepted who err raw = Some self -> command self = "GET" ->
  let out := snd (finish_request HealthHandler.class err
                    {| peer := who; rfile := raw :: more |}) in
  (exists target, request_target raw = Some target /\ path self = stored_path target) /\
  (List.last out (Head []) = Body (Bytes health_body) <-> path self = "/health") /\
  (request_version self <> "HTTP/0.9" ->
     (contract_view <$> read_response out
      = Some (200, Some (Text "application/json"), [Bytes health_body])
      <-> path self = "/health") /\
     (forall target, request_target raw = Some target ->
        target ∈ ["/health?x=1"; "/health/"; "/Health"] ->
        contract_view <$> read_response out
        = Some (200, Some (Text "text/plain"), [Bytes "Supply Chain POC App"]))).
Proof.
  intros Ha Hc out. subst out. rewrite (finish_request_get _ _ _ _ _ Ha Hc). cbn [snd].
  apply accepted_spec in Ha as (_ & _ & _ & _ & _ & word0 & word1 & rest & Hsplit & _ & Hpath).
  assert (Ht : request_target raw = Some word1) by (unfold request_target; rewrite Hsplit; reflexivity).
  split; [exists word1; split; assumption|]. split.
  - rewrite last_last.
    destruct (String.eqb_spec (path self) "/health") as [Hp|Hp]; split;
      intros H; try assumption; try reflexivity; [discriminate H | contradiction].
  - intros Hv. apply String.eqb_neq in Hv. rewrite Hv. split.
    + destruct (String.eqb_spec (path self) "/health") as [Hp|Hp]; split;
        intros H; try assumption; try reflexivity; [discriminate H | contradiction].
    + intros target Htarget Hin. rewrite Ht in Htarget. injection Htarget as <-.
      assert (Hne : path self <> "/health").
      { rewrite Hpath.
        repeat (apply elem_of_cons in Hin as [->|Hin]; [discriminate|]). inversion Hin. }
      apply String.eqb_neq in Hne. rewrite Hne. reflexivity.
Qed.

Lemma health_branch_needs_exact_path_witness :
  contract_view <$>
    read_response (snd (finish_request HealthHandler.class [] (one 3 "GET /health?x=1 HTTP/1.1")))
  = Some (200, Some (Text "text/plain"), [Bytes "Supply Chain POC App"]) /\
  contract_view <$>
    read_response (snd (finish_request HealthHandler.class [] (one 3 "GET /health/ HTTP/1.1")))
  = Some (200, Some (Text "text/plain"), [Bytes "Supply Chain POC App"]) /\
  contract_view <$>
    read_response (snd (finish_request HealthHandler.class [] (one 3 "GET /Health HTTP/1.1")))
  = Some (200, Some (Text "text/plain"), [Bytes "Supply Chain POC App"]).
Proof.
  split; [|split].
  - pose proof (health_branch_needs_exact_path "127.0.0.1" []
                  (request 3 "GET /health?x=1 HTTP/1.1") []) as T.
    edestruct T as (_ & _ & T3); [vm_compute; reflexivity | reflexivity |].
    apply (proj2 (T3 ltac:(discriminate)) "/health?x=1");
      [vm_compute; reflexivity | apply list_elem_of_here].
  - pose proof (health_branch_needs_exact_path "127.0.0.1" []
                  (request 3 "GET /health/ HTTP/1.1") []) as T.
    edestruct T as (_ & _ & T3); [vm_compute; reflexivity | reflexivity |].
    apply (proj2 (T3 ltac:(discriminate)) "/health/");
      [vm_compute; reflexivity | apply list_elem_of_further, list_elem_of_here].
  - pose proof (health_branch_needs_exact_path "127.0.0.1" []
                  (request 3 "GET /Health HTTP/1.1") []) as T.
    edestruct T as (_ & _ & T3); [vm_compute; reflexivity | reflexivity |].
    apply (proj2 (T3 ltac:(discriminate)) "/Health");
      [vm_compute; reflexivity
      | apply list_elem_of_further, list_elem_of_further, list_elem_of_here].
Defined.

(** C5 as the specification states it fails: a POST is not answered 200. *)
Lemma post_is_not_answered_200 :
  ~ (forall who err raw more self,
       accepted who err raw = Some self -> command self <> "GET" ->
       exists resp,
         read_response
           (snd (finish_request HealthHandler.class err {| peer := who; rfile := raw :: more |}))
         = Some resp /\ status resp = 200).
Proof.
  intros H.
  edestruct (H "127.0.0.1" [] (request 0 "POST / HTTP/1.1") []) as (resp & Hr & Hs);
    [vm_compute; reflexivity | discriminate |].
  vm_compute in Hr. injection Hr as <-. discriminate Hs.
Qed.

(** C5 (as amended): the class has no method for any command but GET, so
    [do_GET] does not run for such a request.  When its request line
    names a version other than HTTP/0.9 the base class answers with
    status 501, the message [Unsupported method] with the [repr] of the
    command, and its error page unless the command is HEAD; an HTTP/0.9
    request gets the error page alone. *)
Theorem other_methods_are_501 (who : string) (err : list log_line)
    (raw : RawRequest) (more : list RawRequest) (self : Handler) :
  accepted who err raw = Some self -> command self <> "GET" ->
  let out := snd (finish_request HealthHandler.class err
                    {| peer := who; rfile := raw :: more |}) in
  let page := ErrorPage 501 (unsupported (command self))
                "Server does not support this operation" in
  HealthHandler.getattr ("do_" +:+ command self) = None /\
  (request_version self <> "HTTP/0.9" ->
     exists resp,
       read_response out = Some resp /\
       status resp = 501 /\
       reason resp = unsupported (command self) /\
       get_header "Content-Type" (headers resp) = Some (Text "text/html;charset=utf-8") /\
       body resp = if String.eqb (command self) "HEAD" then [] else [page]) /\
  (request_version self = "HTTP/0.9" ->
     out = if String.eqb (command self) "HEAD" then [] else [Body page]).
Proof.
  intros Ha Hc out page. subst out page.
  rewrite (finish_request_not_get _ _ _ _ _ Ha Hc). cbn [snd]. split; [|split].
  - rewrite getattr_do. apply String.eqb_neq in Hc. rewrite Hc. reflexivity.
  - intros Hv. apply String.eqb_neq in Hv. rewrite Hv.
    destruct (String.eqb (command self) "HEAD"); eexists; (split; [reflexivity|]);
      repeat split.
  - intros Hv. rewrite Hv. reflexivity.
Qed.

Lemma other_methods_are_501_witness :
  exists resp,
    read_response (snd (finish_request HealthHandler.class [] (one 0 "O'BRIEN /health HTTP/1.1")))
    = Some resp /\
    status resp = 501 /\
    reason resp = "Unsupported method (" +:+ Json.quote +:+ "O'BRIEN" +:+ Json.quote +:+ ")" /\
    get_header "Content-Type" (headers resp) = Some (Text "text/html;charset=utf-8") /\
    body resp = [ErrorPage 501
                   ("Unsupported method (" +:+ Json.quote +:+ "O'BRIEN" +:+ Json.quote +:+ ")")
                   "Server does not support this operation"].
Proof.
  pose proof (other_methods_are_501 "127.0.0.1" []
                (request 0 "O'BRIEN /health HTTP/1.1") []) as T.
  edestruct T as (_ & T2 & _); [vm_compute; reflexivity | discriminate |].
  apply T2. discriminate.
Defined.

(** ** Many connections *)

(** C7 as the specification states it fails: [GET /health] and
    [GET /health HTTP/1.1] are two GET requests with the same path; the
    first is answered without status line and Content-Type, the second
    with both. *)
Lemma same_path_other_version_other_response :
  (exists self1 self2,
     accepted "127.0.0.1" [] (request 0 "GET /health") = Some self1 /\
     accepted "127.0.0.1" [] (request 0 "GET /health HTTP/1.1") = Some self2 /\
     command self1 = "GET" /\ command self2 = "GET" /\ path self1 = path self2) /\
  snd (serve_forever HealthHandler.class []
         [one 0 "GET /health"; one 0 "GET /health HTTP/1.1"])
  = [[Body (Bytes health_body)];
     [ok_head 0 "application/json"; Body (Bytes health_body)]] /\
  contract_view <$> respond HealthHandler.class (one 0 "GET /health")
  <> contract_view <$> respond HealthHandler.class (one 0 "GET /health HTTP/1.1").
Proof.
  split; [|split].
  - eexists _, _. split; [vm_compute; reflexivity|]. split; [vm_compute; reflexivity|].
    repeat split; reflexivity.
  - vm_compute. reflexivity.
  - vm_compute. discriminate.
Qed.

(** C7 (as amended): whatever was served before, two GET requests with
    the same path whose request lines both name a version other than
    HTTP/0.9 get responses with the same status, Content-Type and body,
    and two HTTP/0.9 ones get the same bytes; each answer is the one
    the connection gets from a server that has served nothing yet. *)
Theorem same_path_same_response (err1 err2 : list log_line)
    (in1 in2 : list Connection) (i j : nat) (who1 who2 : string)
    (raw1 raw2 : RawRequest) (more1 more2 : list RawRequest) (self1 self2 : Handler) :
  in1 !! i = Some {| peer := who1; rfile := raw1 :: more1 |} ->
  in2 !! j = Some {| peer := who2; rfile := raw2 :: more2 |} ->
  accepted who1 err1 raw1 = Some self1 -> accepted who2 err2 raw2 = Some self2 ->
  command self1 = "GET" -> command self2 = "GET" -> path self1 = path self2 ->
  exists out1 out2,
    snd (serve_forever HealthHandler.class err1 in1) !! i = Some out1 /\
    snd (serve_forever HealthHandler.class err2 in2) !! j = Some out2 /\
    out1 = snd (finish_request HealthHandler.class err1
                  {| peer := who1; rfile := raw1 :: more1 |}) /\
    out2 = snd (finish_request HealthHandler.class err2
                  {| peer := who2; rfile := raw2 :: more2 |}) /\
    (request_version self1 <> "HTTP/0.9" -> request_version self2 <> "HTTP/0.9" ->
       exists resp1 resp2,
         read_response out1 = Some resp1 /\
         read_response out2 = Some resp2 /\
         contract_view resp1 = contract_view resp2) /\
    (request_version self1 = "HTTP/0.9" -> request_version self2 = "HTTP/0.9" ->
       out1 = out2).
Proof.
  intros H1 H2 Ha1 Ha2 Hc1 Hc2 Hp.
  rewrite !serve_forever_outputs. cbn [snd].
  rewrite !list_lookup_fmap, H1, H2. cbn [fmap option_fmap option_map].
  eexists _, _. split; [reflexivity|]. split; [reflexivity|].
  split; [reflexivity|]. split; [reflexivity|].
  rewrite (finish_request_get _ _ _ _ _ Ha1 Hc1), (finish_request_get _ _ _ _ _ Ha2 Hc2).
  rewrite Hp. cbn [snd]. split.
  - intros Hv1 Hv2. apply String.eqb_neq in Hv1, Hv2. rewrite Hv1, Hv2.
    eexists _, _. split; [reflexivity|]. split; reflexivity.
  - intros Hv1 Hv2. rewrite Hv1, Hv2. reflexivity.
Qed.

Lemma same_path_same_response_witness :
  exists out1 out2 resp1 resp2,
    snd (serve_forever HealthHandler.class [] history1) !! 2%nat = Some out1 /\
    snd (serve_forever HealthHandler.class [] history2) !! 0%nat = Some out2 /\
    read_response out1 = Some resp1 /\
    read_response out2 = Some resp2 /\
    contract_view resp1 = contract_view resp2.
Proof.
  pose proof (same_path_same_response [] [] history1 history2 2 0 "127.0.0.1" "127.0.0.1"
                (request 3 "GET /health HTTP/1.1") (request 50 "GET /health HTTP/1.0") [] [])
    as T.
  edestruct T as (out1 & out2 & Ho1 & Ho2 & _ & _ & Hv & _);
    [reflexivity | reflexivity | vm_compute; reflexivity | vm_compute; reflexivity
    | reflexivity | reflexivity | reflexivity |].
  destruct (Hv ltac:(discriminate) ltac:(discriminate)) as (resp1 & resp2 & Hr1 & Hr2 & Hview).
  exists out1, out2, resp1, resp2.
  split; [exact Ho1|]. split; [exact Ho2|]. split; [exact Hr1|]. split; [exact Hr2 | exact Hview].
Defined.

(** The whole responses do differ: the Date header follows the clock. *)
Example date_header_differs :
  respond HealthHandler.class (one 3 "GET /health HTTP/1.1")
  <> respond HealthHandler.class (one 50 "GET /health HTTP/1.1").
Proof. vm_compute. discriminate. Qed.

(** C9: [log_message] returns without writing, and so [sys.stderr] holds
    after any run of requests exactly what it held before. *)
Theorem log_message_writes_nothing :
  (forall format args self, HealthHandler.log_message format args self = self) /\
  (forall err incoming, fst (serve_forever HealthHandler.class err incoming) = err).
Proof.
  split; [reflexivity|].
  intros err incoming. rewrite serve_forever_outputs. reflexivity.
Qed.

(** * Further properties of the module *)

(** ** Startup, lines 31-35 *)

(** What a successful [main] has done. *)
Lemma main_ok_inv (env : Env) (server : Server) (out : list string) :
  main env = Ok (server, out) ->
  exists port,
    port_of env = Ok port /\ 0 <= port <= 65535 /\ bind_errno env port = None /\
    server = {| server_address := ("0.0.0.0", if port =? 0 then ephemeral_port env else port) |} /\
    out = ["Server running on port " +:+ str port].
Proof.
  unfold main. destruct (port_of env) as [port|e]; simpl; [|discriminate].
  unfold HTTPServer, socket_bind.
  destruct ((port <? 0) || (65535 <? port)) eqn:Hrange; simpl; [discriminate|].
  apply orb_false_iff in Hrange as [Hlo Hhi].
  apply Z.ltb_ge in Hlo, Hhi.
  destruct (bind_errno env port) as [no|] eqn:Hno; simpl; [discriminate|].
  intros [= <- <-]. exists port. repeat split; assumption.
Qed.

Lemma main_ok_intro (env : Env) (port : Z) :
  port_of env = Ok port -> 0 <= port <= 65535 -> bind_errno env port = None ->
  main env = Ok ({| server_address := ("0.0.0.0", if port =? 0 then ephemeral_port env else port) |},
                 ["Server running on port " +:+ str port]).
Proof.
  intros Hp Hr Hf. unfold main. rewrite Hp. simpl. unfold HTTPServer, socket_bind.
  replace ((port <? 0) || (65535 <? port)) with false by lia.
  rewrite Hf. reflexivity.
Qed.



(** X2: the printed port is the port the server listens on unless line 32
    yields 0; then the line says port 0 while the server listens on the
    port the system picked. *)
Theorem announced_port_is_bound_port_unless_zero (env : Env) (server : Server) (out : list string) :
  main env = Ok (server, out) ->
  (port_of env <> Ok 0 ->
     out = ["Server running on port " +:+ str (snd (server_address server))]) /\
  (port_of env = Ok 0 ->
     out = ["Server running on port 0"] /\
     snd (server_address server) = ephemeral_port env).
Proof.
  intros Hm. apply main_ok_inv in Hm as (port & Hp & Hr & Hf & -> & ->). split.
  - intros Hnz. simpl. destruct (port =? 0) eqn:Hz; [|reflexivity].
    apply Z.eqb_eq in Hz. subst port. contradiction.
  - intros H0. rewrite Hp in H0. injection H0 as ->. split; reflexivity.
Qed.

Lemma announced_port_is_bound_port_unless_zero_witness :
  (["Server running on port 0"] = ["Server running on port 0"] /\
   snd (server_address {| server_address := ("0.0.0.0", 49152) |}) = ephemeral_port (env_port "0")) /\
  ["Server running on port 9090"]
  = ["Server running on port " +:+ str (snd (server_address {| server_address := ("0.0.0.0", 9090) |}))].
Proof.
  split.
  - apply (proj2 (announced_port_is_bound_port_unless_zero (env_port "0") _ _ eq_refl)).
    reflexivity.
  - apply (proj1 (announced_port_is_bound_port_unless_zero (env_port "9090") _ _ eq_refl)).
    discriminate.
Defined.

(** ** Imports and the [__name__] guard, lines 3-11 and 31 *)

Lemma import_stdlib (env : Env) (name : string) :
  name ∈ stdlib -> import env name = Ok tt.
Proof.
  intros H. unfold import. destruct (decide (name ∈ stdlib)); [reflexivity | contradiction].
Qed.

Lemma stdlib_imports (env : Env) :
  import env "http.server" = Ok tt /\ import env "json" = Ok tt /\ import env "os" = Ok tt.
Proof.
  repeat split; apply import_stdlib; unfold stdlib;
    rewrite !elem_of_union, !elem_of_singleton; auto.
Qed.





(** ** The handler class, lines 14-28 *)

(** X5: an accepted request whose request line names a version other
    than HTTP/0.9 gets one well-formed response, and its status is 200
    exactly when the method is GET; for every other method it is 501. *)
Theorem status_is_200_iff_get (who : string) (err : list log_line)
    (raw : RawRequest) (more : list RawRequest) (self : Handler) :
  accepted who err raw = Some self -> request_version self <> "HTTP/0.9" ->
  exists resp,
    read_response
      (snd (finish_request HealthHandler.class err {| peer := who; rfile := raw :: more |}))
    = Some resp /\
    (status resp = 200 <-> command self = "GET") /\
    (status resp = 501 <-> command self <> "GET").
Proof.
  intros Ha Hv. apply String.eqb_neq in Hv.
  destruct (String.eqb_spec (command self) "GET") as [Hc|Hc].
  - rewrite (finish_request_get _ _ _ _ _ Ha Hc), Hv. cbn [snd].
    eexists. split; [reflexivity|]. cbn [status].
    split; split; intros; (reflexivity || assumption || discriminate || contradiction).
  - rewrite (finish_request_not_get _ _ _ _ _ Ha Hc), Hv. cbn [snd].
    destruct (String.eqb (command self) "HEAD"); eexists; (split; [reflexivity|]);
      cbn [status]; split; split; intros;
      (reflexivity || assumption || discriminate || contradiction).
Qed.

Lemma status_is_200_iff_get_witness :
  exists resp,
    read_response (snd (finish_request HealthHandler.class [] (one 0 "DELETE /health HTTP/1.0")))
    = Some resp /\
    status resp = 501.
Proof.
  pose proof (status_is_200_iff_get "127.0.0.1" [] (request 0 "DELETE /health HTTP/1.0") [])
    as T.
  edestruct T as (resp & Hr & _ & H501); [vm_compute; reflexivity | discriminate |].
  exists resp. split; [exact Hr|]. apply H501. discriminate.
Defined.

(** X6: a response to an accepted GET request whose request line names a
    version other than HTTP/0.9 carries exactly the header fields Server,
    Date and Content-Type, in this order, with the arrival time as the
    date; in particular it has no Content-Length and no Connection
    field.  An HTTP/0.9 GET request is sent no header block at all. *)
Theorem get_response_header_fields (who : string) (err : list log_line)
    (raw : RawRequest) (more : list RawRequest) (self : Handler) :
  accepted who err raw = Some self -> command self = "GET" ->
  let out := snd (finish_request HealthHandler.class err
                    {| peer := who; rfile := raw :: more |}) in
  (request_version self <> "HTTP/0.9" ->
     exists resp,
       read_response out = Some resp /\
       map fst (headers resp) = ["Server"; "Date"; "Content-Type"] /\
       get_header "Server" (headers resp) = Some version_string /\
       get_header "Date" (headers resp) = Some (date_time_string (arrival raw)) /\
       get_header "Content-Length" (headers resp) = None /\
       get_header "Connection" (headers resp) = None) /\
  (request_version self = "HTTP/0.9" -> exists data, out = [Body (Bytes data)]).
Proof.
  intros Ha Hc out. subst out. rewrite (finish_request_get _ _ _ _ _ Ha Hc). cbn [snd].
  split.
  - intros Hv. apply String.eqb_neq in Hv. rewrite Hv.
    eexists. split; [reflexivity|]. repeat split.
  - intros Hv. rewrite Hv. eexists. reflexivity.
Qed.

Lemma get_response_header_fields_witness :
  exists resp,
    read_response (snd (finish_request HealthHandler.class [] (one 9 "GET /foo HTTP/1.1")))
    = Some resp /\
    map fst (headers resp) = ["Server"; "Date"; "Content-Type"] /\
    get_header "Server" (headers resp) = Some version_string /\
    get_header "Date" (headers resp) = Some (date_time_string 9) /\
    get_header "Content-Length" (headers resp) = None /\
    get_header "Connection" (headers resp) = None.
Proof.
  pose proof (get_response_header_fields "127.0.0.1" [] (request 9 "GET /foo HTTP/1.1") [])
    as T.
  edestruct T as (T1 & _); [vm_compute; reflexivity | reflexivity |].
  apply T1. discriminate.
Defined.

(** X7: of an accepted GET request, only the outcome of the test on line
    16, whether it is an HTTP/0.9 request, and the arrival time reach the
    response: two GET requests that agree on these three get the same
    bytes, whatever their targets, their request lines otherwise, their
    header fields and the addresses of their clients. *)
Theorem get_response_ignores_request (err : list log_line) (who1 who2 : string)
    (raw1 raw2 : RawRequest) (more1 more2 : list RawRequest) (self1 self2 : Handler) :
  accepted who1 err raw1 = Some self1 -> accepted who2 err raw2 = Some self2 ->
  command self1 = "GET" -> command self2 = "GET" ->
  arrival raw1 = arrival raw2 ->
  (path self1 = "/health" <-> path self2 = "/health") ->
  (request_version self1 = "HTTP/0.9" <-> request_version self2 = "HTTP/0.9") ->
  finish_request HealthHandler.class err {| peer := who1; rfile := raw1 :: more1 |}
  = finish_request HealthHandler.class err {| peer := who2; rfile := raw2 :: more2 |}.
Proof.
  intros Ha1 Ha2 Hc1 Hc2 Ht Hp Hv.
  rewrite (finish_request_get _ _ _ _ _ Ha1 Hc1), (finish_request_get _ _ _ _ _ Ha2 Hc2), Ht.
  assert (Ep : String.eqb (path self1) "/health" = String.eqb (path self2) "/health").
  { destruct (String.eqb_spec (path self1) "/health") as [H|H],
      (String.eqb_spec (path self2) "/health") as [K|K]; try reflexivity;
      [destruct (K (proj1 Hp H)) | destruct (H (proj2 Hp K))]. }
  assert (Ev : String.eqb (request_version self1) "HTTP/0.9"
               = String.eqb (request_version self2) "HTTP/0.9").
  { destruct (String.eqb_spec (request_version self1) "HTTP/0.9") as [H|H],
      (String.eqb_spec (request_version self2) "HTTP/0.9") as [K|K]; try reflexivity;
      [destruct (K (proj1 Hv H)) | destruct (H (proj2 Hv K))]. }
  rewrite Ep, Ev. reflexivity.
Qed.

Lemma get_response_ignores_request_witness :
  finish_request HealthHandler.class []
    {| peer := "127.0.0.1"; rfile := [request 4 "GET /login?user=alice HTTP/1.1"] |}
  = finish_request HealthHandler.class []
      {| peer := "10.0.0.7"; rfile := [request 4 "GET / HTTP/1.0"] |}.
Proof.
  eapply get_response_ignores_request;
    [vm_compute; reflexivity | vm_compute; reflexivity
    | reflexivity | reflexivity | reflexivity | split; discriminate | split; discriminate].
Defined.

(** X15: the server answers the first request of a connection and then
    closes it, also when the request is an HTTP/1.1 one or asks for
    [keep-alive]: [handle] calls [handle_one_request] once, which leaves
    [close_connection] true, and further requests sent on the same
    connection are neither read nor answered, whatever the first request
    was. *)
Theorem one_request_per_connection (err : list log_line) (who : string)
    (raw : RawRequest) (more : list RawRequest) :
  let self := handle HealthHandler.log_message HealthHandler.getattr (raw :: more)
                (new_handler who err) in
  self = handle_one_request HealthHandler.log_message HealthHandler.getattr
           (set_raw raw (new_handler who err)) /\
  close_connection self = true /\
  finish_request HealthHandler.class err {| peer := who; rfile := raw :: more |}
  = finish_request HealthHandler.class err {| peer := who; rfile := [raw] |}.
Proof.
  cbv zeta. unfold handle. rewrite handle_requests_first.
  split; [reflexivity|]. split; [apply handle_one_request_closes|].
  rewrite !finish_request_first. reflexivity.
Qed.

(** ** [do_GET] on any handler state, lines 15-25 *)

(** X12: whatever state the handler is in, [do_GET] keeps what was
    written before and writes one body after it, and touches neither the
    request, nor the clock, nor [close_connection], nor [sys.stderr].
    For a request other than an HTTP/0.9 one it first flushes the pending
    header lines together with its own status line and three header
    fields in one block, and leaves no header line pending; for an
    HTTP/0.9 request it writes the body alone and leaves the pending
    header lines as they are. *)
Theorem do_GET_appends_one_response (self : Handler) :
  let self' := HealthHandler.do_GET self in
  command self' = command self /\ path self' = path self /\
  request_version self' = request_version self /\ now self' = now self /\
  close_connection self' = close_connection self /\ stderr self' = stderr self /\
  exists content_type data,
    ((path self = "/health" /\ content_type = "application/json" /\ data = health_body)
     \/ (path self <> "/health" /\ content_type = "text/plain" /\
         data = "Supply Chain POC App")) /\
    (request_version self <> "HTTP/0.9" ->
       _headers_buffer self' = [] /\
       wfile self'
       = wfile self ++
         [Head (_headers_buffer self ++
                [StatusLine 200 "OK"; Header "Server" version_string;
                 Header "Date" (date_time_string (now self));
                 Header "Content-Type" (Text content_type)]);
          Body (Bytes data)]) /\
    (request_version self = "HTTP/0.9" ->
       _headers_buffer self' = _headers_buffer self /\
       wfile self' = wfile self ++ [Body (Bytes data)]).
Proof.
  pose proof (do_GET_spec self) as H. cbv zeta.
  destruct (String.eqb_spec (path self) "/health") as [Hp|Hp]; rewrite H;
    (destruct (String.eqb_spec (request_version self) "HTTP/0.9") as [Hv|Hv];
     repeat (split; [reflexivity|]); eexists _, _;
     (split; [first [left; split; [exact Hp | split; reflexivity]
                    | right; split; [exact Hp | split; reflexivity]]|]);
     (split; [intros Hn | intros Hn]); try contradiction;
     fields; rewrite <- ?app_assoc; split; reflexivity).
Qed.

(** ** [int] and [str], lines 32 and 34 *)

Lemma scan_digits_digit (c : ascii) (p : list ascii) (prev : bool) (k : nat) (acc : Z) :
  isdigit c = true ->
  scan_digits (c :: p) prev k acc = scan_digits p false (S k) (10 * acc + digit_value c).
Proof. intros H. cbn [scan_digits]. rewrite H. reflexivity. Qed.

Lemma scan_digits_uint (d : Decimal.uint) (k : nat) (acc : Z) :
  scan_digits (uint_chars d) false k acc
  = Some ([], (k + Decimal.nb_digits d)%nat, uint_value d acc).
Proof.
  revert k acc.
  induction d as [|d IH|d IH|d IH|d IH|d IH|d IH|d IH|d IH|d IH|d IH]; intros k acc;
    [simpl; rewrite Nat.add_0_r; reflexivity | ..];
    unfold uint_chars;
    cbn [NilEmpty.string_of_uint list_ascii_of_string Decimal.nb_digits uint_value];
    fold (uint_chars d);
    rewrite scan_digits_digit by reflexivity;
    rewrite IH, Nat.add_succ_r; reflexivity.
Qed.

Lemma uint_value_pos (d : Decimal.uint) (acc : positive) :
  uint_value d (Zpos acc) = Zpos (Pos.of_uint_acc d acc).
Proof.
  revert acc.
  induction d as [|d IH|d IH|d IH|d IH|d IH|d IH|d IH|d IH|d IH|d IH]; intros acc;
    [reflexivity | ..];
    cbn [uint_value Pos.of_uint_acc]; rewrite <- IH; f_equal; lia.
Qed.

Lemma uint_value_0 (d : Decimal.uint) : uint_value d 0 = Z.of_N (Pos.of_uint d).
Proof.
  induction d as [|d IH|d IH|d IH|d IH|d IH|d IH|d IH|d IH|d IH|d IH];
    [reflexivity | exact IH | ..];
    cbn [uint_value Pos.of_uint N.of_uint Z.of_N]; simpl (10 * 0 + _);
    apply uint_value_pos.
Qed.

Lemma uint_value_to_uint (p : positive) : uint_value (Pos.to_uint p) 0 = Zpos p.
Proof. rewrite uint_value_0, DecimalPos.Unsigned.of_to. reflexivity. Qed.

(** The numeral grows at least by a factor ten with each digit. *)
Lemma uint_value_lower (d : Decimal.uint) (acc : Z) :
  0 <= acc -> acc * 10 ^ Z.of_nat (Decimal.nb_digits d) <= uint_value d acc.
Proof.
  revert acc.
  induction d as [|d IH|d IH|d IH|d IH|d IH|d IH|d IH|d IH|d IH|d IH]; intros acc Hacc;
    [simpl; lia | ..];
    cbn [uint_value Decimal.nb_digits];
    rewrite Nat2Z.inj_succ, Z.pow_succ_r by lia;
    (etransitivity; [|apply IH; lia]);
    pose proof (Z.pow_pos_nonneg 10 (Z.of_nat (Decimal.nb_digits d)) ltac:(lia) ltac:(lia));
    nia.
Qed.

Lemma nzhead_not_D0 (d d' : Decimal.uint) : Decimal.nzhead d <> Decimal.D0 d'.
Proof. induction d; simpl; try discriminate; assumption. Qed.

(** The numeral of a positive number starts with a digit other than 0. *)
Lemma to_uint_head (p : positive) :
  match Pos.to_uint p with
  | Decimal.Nil | Decimal.D0 _ => False
  | _ => True
  end.
Proof.
  assert (H : Decimal.unorm (Pos.to_uint p) = Pos.to_uint p).
  { rewrite <- DecimalPos.Unsigned.to_of, DecimalPos.Unsigned.of_to. reflexivity. }
  pose proof (DecimalPos.Unsigned.to_uint_nonnil p) as Hn.
  pose proof (DecimalPos.Unsigned.to_uint_nonzero p) as Hz.
  destruct (Pos.to_uint p) as [|d|d|d|d|d|d|d|d|d|d]; try exact I; [congruence|].
  unfold Decimal.unorm in H. cbn [Decimal.nzhead] in H.
  destruct (Decimal.nzhead d) eqn:E; try discriminate H.
  - apply Hz. exact (eq_sym H).
  - injection H as H. subst. exact (nzhead_not_D0 _ _ E).
Qed.

Lemma nb_digits_to_uint (p : positive) :
  Zpos p < 10 ^ 4300 -> (Decimal.nb_digits (Pos.to_uint p) <= int_max_str_digits)%nat.
Proof.
  intros Hlt. pose proof (to_uint_head p) as Hh. pose proof (uint_value_to_uint p) as Hv.
  assert (Hstep : forall d i, 1 <= i -> uint_value d (10 * 0 + i) = Zpos p ->
            (S (Decimal.nb_digits d) <= int_max_str_digits)%nat).
  { intros d i Hi Hd.
    assert (Hlow : 10 ^ Z.of_nat (Decimal.nb_digits d) <= Zpos p).
    { clear Hlt. rewrite <- Hd.
      pose proof (uint_value_lower d (10 * 0 + i) ltac:(lia)) as Hlow.
      pose proof (Z.pow_pos_nonneg 10 (Z.of_nat (Decimal.nb_digits d)) ltac:(lia) ltac:(lia)).
      nia. }
    pose proof (Z.le_lt_trans _ _ _ Hlow Hlt) as Hpow.
    apply (Z.pow_lt_mono_r_iff 10) in Hpow; [|reflexivity|discriminate].
    clear Hlt Hlow. change (Z.of_nat (Decimal.nb_digits d) < Z.of_nat 4300) in Hpow.
    apply Nat2Z.inj_lt in Hpow. exact Hpow. }
  clear Hlt.
  destruct (Pos.to_uint p) as [|d|d|d|d|d|d|d|d|d|d]; try contradiction;
    cbn [uint_value Decimal.nb_digits] in *; (eapply Hstep; [|exact Hv]; lia).
Qed.

Lemma digit_is_plain (c : ascii) :
  isdigit c = true ->
  isspace c = false /\ is_underscore c = false /\ (ord c =? 43) = false /\ (ord c =? 45) = false.
Proof. unfold isdigit, isspace, is_underscore. lia. Qed.

Lemma uint_chars_head (d : Decimal.uint) :
  d <> Decimal.Nil -> exists c rest, uint_chars d = c :: rest /\ isdigit c = true.
Proof.
  destruct d; [congruence | ..]; intros _; unfold uint_chars;
    cbn [NilEmpty.string_of_uint list_ascii_of_string]; eexists _, _; split; reflexivity.
Qed.

Lemma read_digits_uint (sign : Z) (d : Decimal.uint) :
  d <> Decimal.Nil -> (Decimal.nb_digits d <= int_max_str_digits)%nat ->
  read_digits sign (uint_chars d) = Ok (sign * uint_value d 0).
Proof.
  intros Hd Hn. destruct (uint_chars_head d Hd) as (c & rest & Hc & Hdig).
  unfold read_digits. rewrite scan_digits_uint. rewrite Hc.
  destruct (digit_is_plain c Hdig) as (_ & -> & _). cbn [skip_space].
  destruct (Decimal.nb_digits d) as [|n] eqn:En.
  - destruct d; simpl in En; congruence.
  - cbn [Nat.add]. apply Nat.ltb_ge in Hn. rewrite Hn. reflexivity.
Qed.

Lemma long_from_string_uint (d : Decimal.uint) :
  d <> Decimal.Nil -> (Decimal.nb_digits d <= int_max_str_digits)%nat ->
  long_from_string (uint_chars d) = Ok (uint_value d 0) /\
  long_from_string ("-"%char :: uint_chars d) = Ok (- uint_value d 0).
Proof.
  intros Hd Hn. pose proof (read_digits_uint 1 d Hd Hn) as H1.
  pose proof (read_digits_uint (-1) d Hd Hn) as H2.
  destruct (uint_chars_head d Hd) as (c & rest & Hc & Hdig).
  destruct (digit_is_plain c Hdig) as (Hs & _ & Hplus & Hminus).
  unfold long_from_string. split.
  - rewrite Hc in *. cbn [skip_space read_sign]. rewrite Hs. cbn [read_sign].
    rewrite Hplus, Hminus, H1. f_equal; lia.
  - cbn [skip_space]. change (isspace "-") with false. cbv iota.
    cbn [read_sign]. change (ord "-" =? 43) with false. change (ord "-" =? 45) with true.
    cbv iota. rewrite H2. f_equal; lia.
Qed.

Lemma str_pos (p : positive) :
  list_ascii_of_string (str (Zpos p)) = uint_chars (Pos.to_uint p) /\
  list_ascii_of_string (str (Zneg p)) = "-"%char :: uint_chars (Pos.to_uint p).
Proof.
  unfold str, uint_chars. cbn [Z.to_int NilZero.string_of_int].
  pose proof (DecimalPos.Unsigned.to_uint_nonnil p) as Hn.
  unfold NilZero.string_of_uint.
  destruct (Pos.to_uint p); [congruence | ..]; split; reflexivity.
Qed.

Lemma int_str_digits (n : Z) :
  Z.abs n < 10 ^ 4300 -> int (Str (str n)) = Ok n.
Proof.
  intros Hn. destruct n as [|p|p]; [reflexivity | ..]; cbn [int];
    destruct (str_pos p) as [Hp Hm];
    pose proof (DecimalPos.Unsigned.to_uint_nonnil p) as Hnil;
    pose proof (nb_digits_to_uint p Hn) as Hnb;
    destruct (long_from_string_uint _ Hnil Hnb) as [H1 H2];
    rewrite uint_value_to_uint in H1, H2.
  - rewrite Hp. exact H1.
  - rewrite Hm. exact H2.
Qed.

(** X9: [int] reads back what [str] writes: for every integer of at most
    4300 digits, [int(str(n))] is [n]. *)
Theorem int_of_str_of_int (n : Z) :
  Z.abs n < 10 ^ 4300 -> int (Str (str n)) = Ok n.
Proof. apply int_str_digits. Qed.

Lemma int_of_str_of_int_witness : int (Str (str (-65535))) = Ok (-65535).
Proof. apply int_of_str_of_int. reflexivity. Defined.

Lemma port_below_digit_limit (n : Z) : 0 <= n <= 65535 -> Z.abs n < 10 ^ 4300.
Proof.
  intros H. apply Z.le_lt_trans with 65535; [lia|]. reflexivity.
Qed.

(** X10: every port can be chosen: with [PORT] set to the decimal text of
    a number in 0-65535, line 32 yields that number, and when the system
    lets it bind the server is created for it and the line printed shows
    the text of [PORT]. *)
Theorem every_port_can_be_set (env : Env) (n : Z) :
  0 <= n <= 65535 -> environ env !! "PORT" = Some (str n) ->
  port_of env = Ok n /\
  (bind_errno env n = None ->
     main env = Ok ({| server_address := ("0.0.0.0", if n =? 0 then ephemeral_port env else n) |},
                    ["Server running on port " +:+ str n])).
Proof.
  intros Hr Hset.
  assert (Hp : port_of env = Ok n).
  { rewrite (port_of_set env _ Hset). apply int_str_digits, port_below_digit_limit, Hr. }
  split; [exact Hp|]. intros Hf. apply main_ok_intro; assumption.
Qed.

Lemma every_port_can_be_set_witness :
  port_of (env_port "65535") = Ok 65535.
Proof.
  apply (proj1 (every_port_can_be_set (env_port "65535") 65535 ltac:(lia) eq_refl)).
Defined.

(** ** White space around [PORT], line 32 *)

Lemma space_is_plain (c : ascii) :
  isspace c = true ->
  isdigit c = false /\ is_underscore c = false /\ (ord c =? 43) = false /\ (ord c =? 45) = false.
Proof. unfold isdigit, isspace, is_underscore. lia. Qed.

Lemma skip_space_all (pad : list ascii) : all_space pad -> skip_space pad = [].
Proof. induction 1 as [|c pad Hc _ IH]; simpl; [reflexivity|]. rewrite Hc. exact IH. Qed.

Lemma skip_space_app_l (pad p : list ascii) :
  all_space pad -> skip_space (pad ++ p) = skip_space p.
Proof. induction 1 as [|c pad Hc _ IH]; simpl; [reflexivity|]. rewrite Hc. exact IH. Qed.

Lemma skip_space_app_r (p pad : list ascii) :
  all_space pad ->
  skip_space (p ++ pad) = match skip_space p with [] => [] | q => q ++ pad end.
Proof.
  intros Hpad. induction p as [|c p IH]; simpl.
  - apply skip_space_all, Hpad.
  - destruct (isspace c); [exact IH | reflexivity].
Qed.

Lemma scan_digits_app_space (q pad : list ascii) :
  all_space pad ->
  forall prev k acc,
    scan_digits (q ++ pad) prev k acc
    = match scan_digits q prev k acc with
      | None => None
      | Some (rest, digits, acc') => Some (rest ++ pad, digits, acc')
      end.
Proof.
  intros Hpad. induction q as [|c q IH]; intros prev k acc.
  - simpl. destruct Hpad as [|c pad Hc _]; simpl.
    + destruct prev; reflexivity.
    + destruct (space_is_plain c Hc) as (-> & -> & _). destruct prev; reflexivity.
  - rewrite <- app_comm_cons. cbn [scan_digits]. destruct (isdigit c); [apply IH|].
    destruct (is_underscore c); destruct prev; try reflexivity. apply IH.
Qed.

Lemma read_digits_app_space (sign : Z) (q pad : list ascii) :
  all_space pad -> read_digits sign (q ++ pad) = read_digits sign q.
Proof.
  intros Hpad. destruct q as [|c q].
  - simpl. destruct Hpad as [|c pad Hc _]; [reflexivity|].
    unfold read_digits. cbn [scan_digits].
    destruct (space_is_plain c Hc) as (-> & -> & _). reflexivity.
  - unfold read_digits. rewrite scan_digits_app_space by assumption.
    rewrite <- app_comm_cons.
    destruct (is_underscore c); [reflexivity|].
    destruct (scan_digits (c :: q) false 0 0) as [[[rest digits] acc]|]; [|reflexivity].
    destruct digits; [reflexivity|].
    rewrite skip_space_app_r by assumption.
    destruct (skip_space rest); reflexivity.
Qed.

Lemma long_from_string_padded (pad1 p pad2 : list ascii) :
  all_space pad1 -> all_space pad2 ->
  long_from_string (pad1 ++ p ++ pad2) = long_from_string p.
Proof.
  intros H1 H2. unfold long_from_string.
  rewrite skip_space_app_l, skip_space_app_r by assumption.
  destruct (skip_space p) as [|c q]; [reflexivity|].
  rewrite <- app_comm_cons. cbn [read_sign].
  destruct (ord c =? 43); [apply read_digits_app_space, H2|].
  destruct (ord c =? 45); [apply read_digits_app_space, H2|].
  apply (read_digits_app_space 1 (c :: q)), H2.
Qed.

(** X11: white space before and after the text of [PORT] (space, tab,
    line feed, vertical tab, form feed, carriage return) does not change
    what line 32 yields, be it a port or [ValueError]. *)
Theorem port_ignores_surrounding_space (env : Env) (s : string) (pad1 pad2 : list ascii) :
  all_space pad1 -> all_space pad2 ->
  environ env !! "PORT"
  = Some (string_of_list_ascii (pad1 ++ list_ascii_of_string s ++ pad2)) ->
  port_of env = int (Str s).
Proof.
  intros H1 H2 Hset. rewrite (port_of_set env _ Hset). cbn [int].
  rewrite list_ascii_of_string_of_list_ascii. apply long_from_string_padded; assumption.
Qed.

Lemma port_ignores_surrounding_space_witness :
  port_of (env_port (String " " (String "8" (String "0" (String (Json.chr 10) EmptyString)))))
  = int (Str "80").
Proof.
  apply (port_ignores_surrounding_space _ "80" [" "%char] [Json.chr 10]).
  - repeat constructor.
  - repeat constructor.
  - reflexivity.
Defined.

(** ** [json.dumps(...).encode()], line 20 *)

Lemma ord_bounded (c : ascii) : 0 <= ord c < 256.
Proof. unfold ord. pose proof (nat_ascii_bounded c). lia. Qed.

Lemma ord_chr (n : Z) : 0 <= n < 256 -> ord (Json.chr n) = n.
Proof.
  intros H. unfold ord, Json.chr. rewrite nat_ascii_embedding by lia. lia.
Qed.

Lemma chr_ord (c : ascii) : Json.chr (ord c) = c.
Proof. unfold ord, Json.chr. rewrite Nat2Z.id. apply ascii_nat_embedding. Qed.

Lemma isascii_String (c : ascii) (s : string) :
  isascii (String c s) = (ord c <? 128) && isascii s.
Proof. reflexivity. Qed.

Lemma isascii_append (a b : string) : isascii (a +:+ b) = isascii a && isascii b.
Proof.
  induction a as [|c a IH]; [reflexivity|].
  change (String c a +:+ b) with (String c (a +:+ b)).
  rewrite !isascii_String, IH. apply andb_assoc.
Qed.

Lemma isascii_hex_digit (n : Z) (s : string) :
  0 <= n < 16 -> isascii (String (Json.hex_digit n) s) = isascii s.
Proof.
  intros H. rewrite isascii_String. unfold Json.hex_digit.
  destruct (n <? 10); rewrite ord_chr by lia; replace (_ <? 128) with true by lia; reflexivity.
Qed.

Lemma isascii_escape (c : ascii) : isascii (Json.escape c) = true.
Proof.
  unfold Json.escape. pose proof (ord_bounded c) as Hb.
  repeat (match goal with |- context [if ?b then _ else _] => destruct b eqn:? end);
    try reflexivity.
  - rewrite isascii_String. replace (ord c <? 128) with true by lia. reflexivity.
  - rewrite isascii_append, !isascii_hex_digit; [reflexivity | ..].
    + apply Z.mod_pos_bound. lia.
    + split; [apply Z.div_pos; lia | apply Z.div_lt_upper_bound; lia].
Qed.

Lemma isascii_escape_all (s : string) : isascii (Json.escape_all s) = true.
Proof.
  induction s as [|c s IH]; [reflexivity|].
  cbn [Json.escape_all]. rewrite isascii_append, isascii_escape, IH. reflexivity.
Qed.

Lemma isascii_encode_basestring_ascii (s : string) :
  isascii (Json.encode_basestring_ascii s) = true.
Proof.
  unfold Json.encode_basestring_ascii.
  rewrite !isascii_append, isascii_escape_all. reflexivity.
Qed.

Lemma isascii_string_of_uint (d : Decimal.uint) : isascii (NilEmpty.string_of_uint d) = true.
Proof. induction d; [reflexivity | ..]; cbn [NilEmpty.string_of_uint]; rewrite isascii_String; exact IHd. Qed.

Lemma isascii_str (z : Z) : isascii (str z) = true.
Proof.
  unfold str. destruct (Z.to_int z) as [d|d]; cbn [NilZero.string_of_int];
    [|rewrite isascii_String; cbn [andb]; change (ord "-" <? 128) with true; cbv iota];
    unfold NilZero.string_of_uint; destruct d; try reflexivity;
    apply isascii_string_of_uint.
Qed.

Lemma isascii_join (sep : string) (items : list string) :
  isascii sep = true -> Forall (fun s => isascii s = true) items ->
  isascii (Json.join sep items) = true.
Proof.
  intros Hsep. induction 1 as [|x items Hx Hitems IH]; [reflexivity|].
  cbn [Json.join]. destruct items as [|y items]; [exact Hx|].
  rewrite !isascii_append, Hx, Hsep, IH. reflexivity.
Qed.

(** [dumps] writes ASCII only, whatever the value. *)
Lemma isascii_dumps : forall v : Json.json, isascii (Json.dumps v) = true.
Proof.
  fix IH 1. intros [| [|] | z | s | l | l]; cbn [Json.dumps]; try reflexivity.
  - apply isascii_str.
  - apply isascii_encode_basestring_ascii.
  - rewrite !isascii_append. cbn [isascii andb].
    rewrite isascii_join; [reflexivity | reflexivity |].
    induction l as [|x l IHl]; constructor; [apply IH | exact IHl].
  - rewrite !isascii_append.
    rewrite isascii_join; [reflexivity | reflexivity |].
    induction l as [|[k x] l IHl]; constructor; [|exact IHl].
    cbn [fst snd]. rewrite !isascii_append, isascii_encode_basestring_ascii, IH. reflexivity.
Qed.

Lemma encode_ascii (s : string) : isascii s = true -> Json.encode s = s.
Proof.
  induction s as [|c s IH]; [reflexivity|].
  rewrite isascii_String. intros H. apply andb_prop in H as [Hc Hs].
  cbn [Json.encode]. rewrite Hc, (IH Hs). reflexivity.
Qed.

(** X13: [json.dumps] writes characters below 128 only, so [.encode()]
    leaves its text unchanged byte for byte, whatever value is dumped. *)
Theorem encode_dumps_is_dumps (v : Json.json) :
  isascii (Json.dumps v) = true /\ Json.encode (Json.dumps v) = Json.dumps v.
Proof. split; [apply isascii_dumps | apply encode_ascii, isascii_dumps]. Qed.

(** ** Reading the body back *)

Lemma list_ascii_of_string_append (a b : string) :
  list_ascii_of_string (a +:+ b) = list_ascii_of_string a ++ list_ascii_of_string b.
Proof.
  induction a as [|c a IH]; [reflexivity|].
  change (String c a +:+ b) with (String c (a +:+ b)).
  cbn [list_ascii_of_string]. rewrite IH. reflexivity.
Qed.

Lemma ord_eq_chr (c : ascii) (n : Z) : ord c = n -> c = Json.chr n.
Proof. intros <-. symmetry. apply chr_ord. Qed.

(** One character written by [escape] and read by [scan_string]. *)
Lemma scan_string_escape (c : ascii) (p : list ascii) (s : string) (rest : list ascii) :
  no_u_escape (String c EmptyString) = true ->
  Json.scan_string p = Some (s, rest) ->
  Json.scan_string (list_ascii_of_string (Json.escape c) ++ p) = Some (String c s, rest).
Proof.
  unfold no_u_escape. cbn [list_ascii_of_string forallb]. rewrite andb_true_r.
  intros Hc Hp. unfold Json.escape. cbv zeta in Hc |- *.
  destruct (ord c =? 34) eqn:E34.
  { apply Z.eqb_eq, ord_eq_chr in E34. subst c. cbn. rewrite Hp. reflexivity. }
  destruct (ord c =? 92) eqn:E92.
  { apply Z.eqb_eq, ord_eq_chr in E92. subst c. cbn. rewrite Hp. reflexivity. }
  destruct (ord c =? 10) eqn:E10.
  { apply Z.eqb_eq, ord_eq_chr in E10. subst c. cbn. rewrite Hp. reflexivity. }
  destruct (ord c =? 13) eqn:E13.
  { apply Z.eqb_eq, ord_eq_chr in E13. subst c. cbn. rewrite Hp. reflexivity. }
  destruct (ord c =? 9) eqn:E9.
  { apply Z.eqb_eq, ord_eq_chr in E9. subst c. cbn. rewrite Hp. reflexivity. }
  destruct (ord c =? 12) eqn:E12.
  { apply Z.eqb_eq, ord_eq_chr in E12. subst c. cbn. rewrite Hp. reflexivity. }
  destruct (ord c =? 8) eqn:E8.
  { apply Z.eqb_eq, ord_eq_chr in E8. subst c. cbn. rewrite Hp. reflexivity. }
  assert (Hr : (32 <=? ord c) && (ord c <=? 126) = true) by lia.
  rewrite Hr. cbn [list_ascii_of_string].
  change ([c] ++ p) with (c :: p). cbn [Json.scan_string].
  rewrite E34, E92. replace (ord c <? 32) with false by lia.
  rewrite Hp. reflexivity.
Qed.

Lemma scan_string_escape_all (s : string) (rest : list ascii) :
  no_u_escape s = true ->
  Json.scan_string (list_ascii_of_string (Json.escape_all s) ++ Json.chr 34 :: rest)
  = Some (s, rest).
Proof.
  induction s as [|c s IH]; [reflexivity|].
  unfold no_u_escape. cbn [list_ascii_of_string forallb]. intros H.
  apply andb_prop in H as [Hc Hs].
  cbn [Json.escape_all]. rewrite list_ascii_of_string_append, <- app_assoc.
  apply scan_string_escape; [|exact (IH Hs)].
  unfold no_u_escape. cbn [list_ascii_of_string forallb]. rewrite Hc. reflexivity.
Qed.

Lemma encode_basestring_ascii_chars (s : string) (rest : list ascii) :
  list_ascii_of_string (Json.encode_basestring_ascii s) ++ rest
  = Json.chr 34 :: list_ascii_of_string (Json.escape_all s) ++ Json.chr 34 :: rest.
Proof.
  unfold Json.encode_basestring_ascii.
  rewrite !list_ascii_of_string_append, <- !app_assoc. reflexivity.
Qed.

Lemma skip_ws_plain (c : ascii) (p : list ascii) :
  Json.is_ws c = false -> Json.skip_ws (c :: p) = c :: p.
Proof. intros H. cbn [Json.skip_ws]. rewrite H. reflexivity. Qed.

Lemma skip_ws_space (p : list ascii) : Json.skip_ws (" "%char :: p) = Json.skip_ws p.
Proof. reflexivity. Qed.

Lemma scan_value_space (fuel : nat) (p : list ascii) :
  Json.scan_value (S fuel) (" "%char :: p) = Json.scan_value (S fuel) p.
Proof. reflexivity. Qed.

(** A string value, as [scan_value] reads it. *)
Lemma scan_value_string (fuel : nat) (s : string) (rest : list ascii) :
  no_u_escape s = true ->
  Json.scan_value (S fuel)
    (Json.chr 34 :: list_ascii_of_string (Json.escape_all s) ++ Json.chr 34 :: rest)
  = Some (Json.JStr s, rest).
Proof.
  intros Hs. cbn [Json.scan_value]. rewrite skip_ws_plain by reflexivity.
  cbv zeta. change (ord (Json.chr 34) =? 34) with true. cbv iota.
  rewrite scan_string_escape_all by assumption. reflexivity.
Qed.

(** One member and the closing brace, as [scan_members] reads them. *)
Lemma scan_members_one (fuel : nat) (k v : string) (rest : list ascii) :
  no_u_escape k = true -> no_u_escape v = true ->
  Json.scan_members (S (S fuel))
    (Json.chr 34 :: list_ascii_of_string (Json.escape_all k) ++ Json.chr 34 ::
     ":"%char :: " "%char ::
     Json.chr 34 :: list_ascii_of_string (Json.escape_all v) ++ Json.chr 34 ::
     "}"%char :: rest) []
  = Some (Json.JDict [(k, Json.JStr v)], rest).
Proof.
  intros Hk Hv. cbn [Json.scan_members]. rewrite skip_ws_plain by reflexivity.
  change (ord (Json.chr 34) =? 34) with true. cbv iota.
  rewrite scan_string_escape_all by assumption. cbn [mbind option_bind].
  rewrite skip_ws_plain by reflexivity.
  change (ord ":" =? 58) with true. cbv iota.
  rewrite scan_value_space, (scan_value_string fuel v) by assumption.
  cbn [mbind option_bind].
  rewrite skip_ws_plain by reflexivity.
  change (ord "}" =? 44) with false. change (ord "}" =? 125) with true. cbv iota.
  reflexivity.
Qed.

(** The text [dumps] writes for a dict with one string member. *)
Lemma dumps_one_member_chars (k v : string) :
  list_ascii_of_string (Json.dumps (Json.JDict [(k, Json.JStr v)]))
  = "{"%char :: Json.chr 34 :: list_ascii_of_string (Json.escape_all k) ++ Json.chr 34 ::
    ":"%char :: " "%char ::
    Json.chr 34 :: list_ascii_of_string (Json.escape_all v) ++ Json.chr 34 ::
    "}"%char :: [].
Proof.
  cbn [Json.dumps map Json.join fst snd].
  rewrite !list_ascii_of_string_append, <- !app_assoc.
  rewrite (encode_basestring_ascii_chars k), (encode_basestring_ascii_chars v).
  reflexivity.
Qed.

(** X14: a dict with one member whose key and value are strings that
    need no [\u] escape, dumped and encoded as on line 20, is read back by
    [json.loads] as the same dict. *)
Theorem loads_dumps_one_member (k v : string) :
  no_u_escape k = true -> no_u_escape v = true ->
  Json.loads (Json.encode (Json.dumps (Json.JDict [(k, Json.JStr v)])))
  = Some (Json.JDict [(k, Json.JStr v)]).
Proof.
  intros Hk Hv. rewrite encode_ascii by apply isascii_dumps.
  unfold Json.loads. rewrite dumps_one_member_chars.
  cbn [length]. cbn [Json.scan_value].
  rewrite skip_ws_plain by reflexivity.
  cbv zeta. change (ord "{" =? 34) with false. change (ord "{" =? 123) with true. cbv iota.
  rewrite skip_ws_plain by reflexivity.
  change (ord (Json.chr 34) =? 125) with false. cbv iota.
  rewrite scan_members_one by assumption. reflexivity.
Qed.

Lemma loads_dumps_one_member_witness :
  Json.loads (Json.encode (Json.dumps (Json.JDict [("status", Json.JStr "ok")])))
  = Some (Json.JDict [("status", Json.JStr "ok")]).
Proof. apply loads_dumps_one_member; reflexivity. Defined.
